(** * Candidate Evaluation API: the request handlers of [main.py]

    A shallow embedding of the three FastAPI handlers
    [langchain_questions], [check_answers] and [complete_evaluation],
    together with the properties of their validation and error
    translation layer.

    Python values are modelled by [pyval], strings by lists of Unicode
    code points, raised exceptions by [exn]; a handler is a computation
    in the monad [M], which records every call that leaves the handler
    (file read, PDF extraction, prompt builders, evaluation client,
    logger) in a trace. *)

From Stdlib Require Import String Ascii.
From Stdlib Require Import List ZArith NArith Bool Lia.
From Stdlib Require Import DecimalString SpecFloat.
Import ListNotations.

Set Implicit Arguments.
Set Warnings "-register-all".
Local Open Scope Z_scope.
Local Open Scope list_scope.

(** ** Python strings *)

Module PyStr.

(** A [str] is a sequence of Unicode code points. *)
Definition t := list N.

(** ASCII literals of the source text. *)
Definition lit (s : string) : t :=
  map N_of_ascii (list_ascii_of_string s).

(** [str(n)] for a non-negative integer, as used by the f-strings. *)
Definition of_nat (n : nat) : t :=
  lit (NilZero.string_of_uint (Nat.to_uint n)).

(** [str(z)] for an [int]. *)
Definition of_Z (z : Z) : t :=
  lit (NilZero.string_of_int (Z.to_int z)).

(** [str.isspace] on one code point: CPython's [_PyUnicode_IsWhitespace]. *)
Definition isspace (c : N) : bool :=
  (((9 <=? c) && (c <=? 13)) ||
   ((28 <=? c) && (c <=? 32)) ||
   (c =? 133) || (c =? 160) || (c =? 5760) ||
   ((8192 <=? c) && (c <=? 8202)) ||
   (c =? 8232) || (c =? 8233) || (c =? 8239) || (c =? 8287) ||
   (c =? 12288))%N.

Fixpoint lstrip (s : t) : t :=
  match s with
  | [] => []
  | c :: r => if isspace c then lstrip r else s
  end.

Definition rstrip (s : t) : t := rev (lstrip (rev s)).

(** [s.strip()] with no argument. *)
Definition strip (s : t) : t := rstrip (lstrip s).

(** Truth value of a string: non-empty. *)
Definition truthy (s : t) : bool :=
  match s with [] => false | _ :: _ => true end.

(** [not s.strip()] *)
Definition blank (s : t) : bool := negb (truthy (strip s)).

Definition eqb (a b : t) : bool :=
  if list_eq_dec N.eq_dec a b then true else false.

Fixpoint prefixb (p s : t) : bool :=
  match p, s with
  | [], _ => true
  | _ :: _, [] => false
  | a :: p', b :: s' => (a =? b)%N && prefixb p' s'
  end.

(** [p in s] on strings: substring search. *)
Fixpoint substrb (p s : t) : bool :=
  prefixb p s ||
  match s with
  | [] => false
  | _ :: s' => substrb p s'
  end.

End PyStr.

Definition pystr : Type := PyStr.t.
Notation "$ s" := (PyStr.lit s) (at level 9, s at level 0, format "$ s").

(** ** Python values *)

(** The values a JSON body can carry, and the values the handlers return. *)
Inductive pyval : Type :=
| VNone
| VBool (b : bool)
| VInt (z : Z)
| VFloat (f : spec_float)
| VStr (s : pystr)
| VList (l : list pyval)
| VDict (d : list (pystr * pyval)).

(** [bool(v)]: the truth value used by [if v] and [not v]. *)
Definition truthy (v : pyval) : bool :=
  match v with
  | VNone => false
  | VBool b => b
  | VInt z => negb (z =? 0)
  | VFloat (S754_zero _) => false
  | VFloat _ => true
  | VStr s => PyStr.truthy s
  | VList l => match l with [] => false | _ => true end
  | VDict d => match d with [] => false | _ => true end
  end.

Definition is_str (v : pyval) : bool :=
  match v with VStr _ => true | _ => false end.

(** [type(v).__name__] *)
Definition type_name (v : pyval) : pystr :=
  match v with
  | VNone => $"NoneType"
  | VBool _ => $"bool"
  | VInt _ => $"int"
  | VFloat _ => $"float"
  | VStr _ => $"str"
  | VList _ => $"list"
  | VDict _ => $"dict"
  end.

(** [v == s] for a string [s]. *)
Definition py_eq_str (v : pyval) (s : pystr) : bool :=
  match v with VStr s' => PyStr.eqb s' s | _ => false end.

Fixpoint dict_get {A : Type} (k : pystr) (d : list (pystr * A)) : option A :=
  match d with
  | [] => None
  | (k', v) :: r => if PyStr.eqb k' k then Some v else dict_get k r
  end.

Definition dict_has {A : Type} (k : pystr) (d : list (pystr * A)) : bool :=
  existsb (fun kv => PyStr.eqb (fst kv) k) d.

(** ** Exceptions *)

Inductive exn_class : Type :=
| ValueError
| JSONDecodeError      (* a subclass of ValueError *)
| EvaluationError
| AttributeError
| TypeError
| KeyError
| OtherError.          (* any other subclass of Exception *)

(** A raised exception; [PyExc c m] carries what [str(e)] gives. *)
Inductive exn : Type :=
| HTTPException (status_code : Z) (detail : pyval)
| PyExc (cls : exn_class) (msg : pystr).

Definition is_HTTPException (e : exn) : bool :=
  match e with HTTPException _ _ => true | _ => false end.

Definition is_ValueError (e : exn) : bool :=
  match e with
  | PyExc ValueError _ | PyExc JSONDecodeError _ => true
  | _ => false
  end.

Definition is_JSONDecodeError (e : exn) : bool :=
  match e with PyExc JSONDecodeError _ => true | _ => false end.

Definition is_EvaluationError (e : exn) : bool :=
  match e with PyExc EvaluationError _ => true | _ => false end.

Definition HTTP_204_NO_CONTENT : Z := 204.
Definition HTTP_400_BAD_REQUEST : Z := 400.
Definition HTTP_415_UNSUPPORTED_MEDIA_TYPE : Z := 415.
Definition HTTP_422_UNPROCESSABLE_ENTITY : Z := 422.
Definition HTTP_500_INTERNAL_SERVER_ERROR : Z := 500.

(** [field in v] for a string [field]. *)
Definition py_contains (field : pystr) (v : pyval) : exn + bool :=
  match v with
  | VDict d => inr (dict_has field d)
  | VList l => inr (existsb (fun x => py_eq_str x field) l)
  | VStr s => inr (PyStr.substrb field s)
  | _ => inl (PyExc TypeError
                ($"argument of type '" ++ type_name v ++ $"' is not iterable"))
  end.

(** [v[key]] for one of the literal keys of the source, whose [repr] is the
    key between single quotes. *)
Definition py_getitem (v : pyval) (key : pystr) : exn + pyval :=
  match v with
  | VDict d =>
      match dict_get key d with
      | Some x => inr x
      | None => inl (PyExc KeyError ($"'" ++ key ++ $"'"))
      end
  | VList _ =>
      inl (PyExc TypeError $"list indices must be integers or slices, not str")
  | VStr _ =>
      inl (PyExc TypeError $"string indices must be integers, not 'str'")
  | _ =>
      inl (PyExc TypeError ($"'" ++ type_name v ++ $"' object is not subscriptable"))
  end.

(** [a.strip()] on an arbitrary value: only [str] has the method. *)
Definition py_strip (a : pyval) : exn + pystr :=
  match a with
  | VStr s => inr (PyStr.strip s)
  | _ => inl (PyExc AttributeError
                ($"'" ++ type_name a ++ $"' object has no attribute 'strip'"))
  end.

(** ** Calls that leave the handler *)

Inductive log_level : Type := INFO | WARNING | ERROR.

Inductive event : Type :=
| EvFileRead
| EvFitzOpen (stream : list N)
| EvGetText (page : nat)
| EvPreparePrompt (resume : pystr) (tech_stack difficulty question_count : pyval)
| EvGetQuestions (prompt : pystr)
| EvPreparePromptForAnswercheck (json_data : list (pystr * pyval))
| EvGetEvaluation (prompt : pystr)
| EvGetFeedbackForScore (score : pyval)
| EvEvaluateCandidate (resume tech_stack : pystr) (difficulty question_count : Z)
                      (answers : list (pystr * pystr))
| EvLog (level : log_level) (msg : pystr).

(** The document text extractor is PyMuPDF: opening the stream and reading
    the text of a page. *)
Definition is_extractor_call (e : event) : bool :=
  match e with EvFitzOpen _ | EvGetText _ => true | _ => false end.

(** The evaluation client is what sends a prompt to the language model. *)
Definition is_evaluation_call (e : event) : bool :=
  match e with
  | EvGetQuestions _ | EvGetEvaluation _ | EvEvaluateCandidate _ _ _ _ _ => true
  | _ => false
  end.

Definition is_prompt_call (e : event) : bool :=
  match e with
  | EvPreparePrompt _ _ _ _ | EvPreparePromptForAnswercheck _ => true
  | _ => false
  end.

Definition extractor_calls (tr : list event) : list event :=
  filter is_extractor_call tr.

Definition evaluation_calls (tr : list event) : list event :=
  filter is_evaluation_call tr.

Definition prompt_calls (tr : list event) : list event :=
  filter is_prompt_call tr.

(** The collaborators of the handlers.  The module [api_request] and the
    libraries the handlers call are not part of the sources, so each
    function is a parameter that returns a value or raises.  The types of
    the values follow the data model of the specification: a prompt is a
    string, a question set is a sequence of strings, a score is a numeric
    value, the feedback is a string, the result of the combined procedure is
    an object.  [fitz_open] gives the pages of the document, each with the
    result of its [get_text].  [http_exception_str] is [str(e)] for an
    [HTTPException], which depends on the version of the framework. *)
Record collaborators : Type := {
  json_loads : pystr -> exn + pyval;
  fitz_open : list N -> exn + list (exn + pystr);
  prepare_prompt : pystr -> pyval -> pyval -> pyval -> exn + pystr;
  get_questions : pystr -> exn + list pystr;
  prepare_prompt_for_answercheck : list (pystr * pyval) -> exn + pystr;
  get_evaluation : pystr -> exn + pyval;
  get_feedback_for_score : pyval -> exn + pystr;
  evaluate_candidate :
    pystr -> pystr -> Z -> Z -> list (pystr * pystr) -> exn + pyval;
  http_exception_str : Z -> pyval -> pystr
}.

(** [str(e)] *)
Definition exn_str (env : collaborators) (e : exn) : pystr :=
  match e with
  | HTTPException s d => http_exception_str env s d
  | PyExc _ m => m
  end.

(** ** The handler monad: a trace of calls and a value or a raised exception *)

Definition M (A : Type) : Type := (list event * (exn + A))%type.

Definition ret {A : Type} (a : A) : M A := ([], inr a).

Definition raise {A : Type} (e : exn) : M A := ([], inl e).

Definition bind {A B : Type} (m : M A) (f : A -> M B) : M B :=
  match m with
  | (t1, inl e) => (t1, inl e)
  | (t1, inr a) => let (t2, r) := f a in (t1 ++ t2, r)
  end.

(** [try: m except ...: h e]; the handler re-raises what no clause matches. *)
Definition try_except {A : Type} (m : M A) (h : exn -> M A) : M A :=
  match m with
  | (t1, inl e) => let (t2, r) := h e in (t1 ++ t2, r)
  | (t1, inr a) => (t1, inr a)
  end.

(** A call to a collaborator: the event, then its result. *)
Definition call {A : Type} (ev : event) (r : exn + A) : M A := ([ev], r).

(** A pure operation that may raise. *)
Definition lift {A : Type} (r : exn + A) : M A := ([], r).

Definition log (l : log_level) (msg : pystr) : M unit := ([EvLog l msg], inr tt).

(** [if c: raise e] *)
Definition raise_if (c : bool) (e : exn) : M unit :=
  if c then raise e else ret tt.

Declare Scope py_scope.
Delimit Scope py_scope with py.
Notation "x <- m ;; k" := (bind m (fun x => k))
  (at level 100, m at next level, right associativity) : py_scope.
Notation "m ;;; k" := (bind m (fun _ => k))
  (at level 100, right associativity) : py_scope.
Local Open Scope py_scope.

Definition trace_of {A : Type} (m : M A) : list event := fst m.
Definition outcome {A : Type} (m : M A) : exn + A := snd m.

(** ** The uploaded file *)

Record UploadFile : Type := {
  content_type : option pystr;
  filename : option pystr;
  content : list N
}.

(** [await file.read()] *)
Definition file_read (file : UploadFile) : M (list N) :=
  call EvFileRead (inr (content file)).

(** [content_type not in ["application/pdf", "application/x-pdf"]] *)
Definition pdf_content_types : list pystr :=
  [$"application/pdf"; $"application/x-pdf"].

Definition is_pdf_content_type (ct : option pystr) : bool :=
  match ct with
  | None => false
  | Some c => existsb (PyStr.eqb c) pdf_content_types
  end.

Definition opt_str (o : option pystr) : pyval :=
  match o with None => VNone | Some s => VStr s end.

(** What a handler hands back to the framework. *)
Inductive result : Type :=
| Return (body : pyval)
| JSONResponse (status_code : Z) (body : pyval).

Section Handlers.

Variable env : collaborators.

Definition http_error {A : Type} (code : Z) (detail : pystr) : M A :=
  raise (HTTPException code (VStr detail)).

(** The outermost [except HTTPException: raise / except Exception as e] of
    a handler. *)
Definition top_level (name : pystr) (body : M result) : M result :=
  try_except body (fun e =>
    if is_HTTPException e then raise e
    else
      log ERROR ($"Unexpected error in " ++ name ++ $": " ++ exn_str env e) ;;;
      http_error HTTP_500_INTERNAL_SERVER_ERROR
        ($"An unexpected error occurred: " ++ exn_str env e)).

(** [for page in pdf_doc: resume_text += page.get_text()] *)
Fixpoint read_pages (pages : list (exn + pystr)) (n : nat) (resume_text : pystr)
  : M pystr :=
  match pages with
  | [] => ret resume_text
  | p :: rest =>
      t <- call (EvGetText n) p ;;
      read_pages rest (S n) (resume_text ++ t)
  end.

(** The block "Extract text from PDF using PyMuPDF", the same in
    [langchain_questions] and in [complete_evaluation]. *)
Definition extract_resume_text (pdf_data : list N) : M pystr :=
  try_except
    (pdf_doc <- call (EvFitzOpen pdf_data) (fitz_open env pdf_data) ;;
     resume_text <- read_pages pdf_doc 0 [] ;;
     raise_if (PyStr.blank resume_text)
       (HTTPException HTTP_422_UNPROCESSABLE_ENTITY
          (VStr $"Could not extract text from PDF. The file may be empty or corrupted.")) ;;;
     ret resume_text)
    (fun e =>
       log ERROR ($"Error processing PDF: " ++ exn_str env e) ;;;
       http_error HTTP_500_INTERNAL_SERVER_ERROR
         ($"Failed to process PDF: " ++ exn_str env e)).

(** *** POST /questions *)

Definition required_fields : list pystr :=
  [$"techStack"; $"difficultyLevel"; $"questionCount"].

(** [for field in required_fields: if field not in json_data: raise ...] *)
Fixpoint check_required (json_data : pyval) (fields : list pystr) : M unit :=
  match fields with
  | [] => ret tt
  | field :: rest =>
      present <- lift (py_contains field json_data) ;;
      raise_if (negb present)
        (HTTPException HTTP_400_BAD_REQUEST
           (VStr ($"Missing required field: " ++ field))) ;;;
      check_required json_data rest
  end.

(** The block "Parse JSON data". *)
Definition parse_json_data (data : option pystr) : M pyval :=
  try_except
    (json_data <- match data with
                  | Some d => if PyStr.truthy d then lift (json_loads env d)
                              else ret (VDict [])
                  | None => ret (VDict [])
                  end ;;
     raise_if (negb (truthy json_data))
       (HTTPException HTTP_400_BAD_REQUEST
          (VStr $"Missing required parameters in JSON data")) ;;;
     check_required json_data required_fields ;;;
     ret json_data)
    (fun e =>
       if is_JSONDecodeError e
       then http_error HTTP_400_BAD_REQUEST $"Invalid JSON data format"
       else raise e).

Definition no_questions_response : result :=
  JSONResponse HTTP_204_NO_CONTENT
    (VDict [($"message",
             VStr $"No questions could be generated. Try adjusting parameters.")]).

(** The block "Generate questions". *)
Definition generate_questions (processed_data json_data : pyval)
  (resume_text : pystr) : M result :=
  try_except
    (tech_stack <- lift (py_getitem json_data $"techStack") ;;
     difficulty <- lift (py_getitem json_data $"difficultyLevel") ;;
     question_count <- lift (py_getitem json_data $"questionCount") ;;
     prompt <- call (EvPreparePrompt resume_text tech_stack difficulty question_count)
                    (prepare_prompt env resume_text tech_stack difficulty question_count) ;;
     log INFO ($"Generated prompt for questions, length: "
               ++ PyStr.of_nat (List.length prompt)) ;;;
     questions <- call (EvGetQuestions prompt) (get_questions env prompt) ;;
     match questions with
     | [] =>
         log WARNING $"No questions were generated" ;;;
         ret no_questions_response
     | _ :: _ =>
         ret (Return (VDict [($"metadata", processed_data);
                             ($"questions", VList (map VStr questions));
                             ($"count", VInt (Z.of_nat (List.length questions)))]))
     end)
    (fun e =>
       if is_ValueError e
       then http_error HTTP_400_BAD_REQUEST (exn_str env e)
       else
         log ERROR ($"Error generating questions: " ++ exn_str env e) ;;;
         http_error HTTP_500_INTERNAL_SERVER_ERROR
           ($"Failed to generate questions: " ++ exn_str env e)).

Definition processed_data_of (file : UploadFile) (pdf_data : list N)
  (json_data : pyval) : pyval :=
  VDict [($"file_size", VInt (Z.of_nat (List.length pdf_data)));
         ($"file_name", opt_str (filename file));
         ($"json_data", json_data)].

Definition langchain_questions (file : UploadFile) (data : option pystr)
  : M result :=
  top_level $"langchain_questions"
    (raise_if (negb (is_pdf_content_type (content_type file)))
       (HTTPException HTTP_415_UNSUPPORTED_MEDIA_TYPE
          (VStr $"File is not a valid PDF")) ;;;
     pdf_data <- file_read file ;;
     json_data <- parse_json_data data ;;
     let processed_data := processed_data_of file pdf_data json_data in
     resume_text <- extract_resume_text pdf_data ;;
     generate_questions processed_data json_data resume_text).

(** *** POST /check-answers *)

(** [not a or not a.strip()] *)
Definition is_empty_answer (a : pyval) : M bool :=
  if negb (truthy a) then ret true
  else
    s <- lift (py_strip a) ;;
    ret (negb (PyStr.truthy s)).

(** [[q for q, a in json_data.items() if not a or not a.strip()]] *)
Fixpoint empty_answers (items : list (pystr * pyval)) : M (list pystr) :=
  match items with
  | [] => ret []
  | (q, a) :: rest =>
      e <- is_empty_answer a ;;
      r <- empty_answers rest ;;
      ret (if e then q :: r else r)
  end.

(** The block "Generate evaluation prompt and get score". *)
Definition evaluate_answers (items : list (pystr * pyval)) : M result :=
  try_except
    (prompt <- call (EvPreparePromptForAnswercheck items)
                    (prepare_prompt_for_answercheck env items) ;;
     score <- call (EvGetEvaluation prompt) (get_evaluation env prompt) ;;
     feedback <- call (EvGetFeedbackForScore score)
                      (get_feedback_for_score env score) ;;
     ret (Return (VDict [($"score", score);
                         ($"feedback", VStr feedback);
                         ($"evaluated_answers", VInt (Z.of_nat (List.length items)));
                         ($"status", VStr $"success")])))
    (fun e =>
       if is_EvaluationError e
       then
         log ERROR ($"Evaluation error: " ++ exn_str env e) ;;;
         http_error HTTP_500_INTERNAL_SERVER_ERROR
           ($"Evaluation failed: " ++ exn_str env e)
       else raise e).

Definition check_answers (json_data : pyval) : M result :=
  top_level $"check_answers"
    (items <- match json_data with
              | VDict d => ret d
              | _ => http_error HTTP_400_BAD_REQUEST
                       $"Data must be a dictionary mapping questions to answers"
              end ;;
     raise_if (negb (truthy json_data))
       (HTTPException HTTP_400_BAD_REQUEST
          (VStr $"No question-answer pairs provided")) ;;;
     empty <- empty_answers items ;;
     raise_if (match empty with [] => false | _ :: _ => true end)
       (HTTPException HTTP_400_BAD_REQUEST
          (VStr ($"Empty answers provided for " ++ PyStr.of_nat (List.length empty)
                 ++ $" questions"))) ;;;
     evaluate_answers items).

(** *** POST /complete-evaluation *)

(** [int(x)] on a value that already is an [int]. *)
Definition py_int (x : Z) : M Z := ret x.

(** [try: v = int(v); if not lo <= v <= hi: raise ValueError(inner)
     except ValueError: raise HTTPException(400, detail)] *)
Definition check_range (v lo hi : Z) (inner detail : pystr) : M Z :=
  try_except
    (v' <- py_int v ;;
     raise_if (negb ((lo <=? v') && (v' <=? hi))) (PyExc ValueError inner) ;;;
     ret v')
    (fun e =>
       if is_ValueError e
       then http_error HTTP_400_BAD_REQUEST detail
       else raise e).

(** The block "Validate inputs". *)
Definition validate_inputs (tech_stack : pystr) (difficulty question_count : Z)
  (answers : list (pystr * pystr)) : M (Z * Z) :=
  raise_if (negb (PyStr.truthy tech_stack) || PyStr.blank tech_stack)
    (HTTPException HTTP_400_BAD_REQUEST (VStr $"Tech stack cannot be empty")) ;;;
  difficulty <- check_range difficulty 1 5
                  $"Difficulty must be between 1 and 5"
                  $"Difficulty must be an integer between 1 and 5" ;;
  question_count <- check_range question_count 1 20
                  $"Question count must be between 1 and 20"
                  $"Question count must be an integer between 1 and 20" ;;
  raise_if (match answers with [] => true | _ :: _ => false end)
    (HTTPException HTTP_400_BAD_REQUEST
       (VStr $"No answers provided for evaluation")) ;;;
  ret (difficulty, question_count).

(** The block "Perform the evaluation". *)
Definition perform_evaluation (resume_text tech_stack : pystr)
  (difficulty question_count : Z) (answers : list (pystr * pystr)) : M result :=
  result <- call (EvEvaluateCandidate resume_text tech_stack difficulty
                    question_count answers)
                 (evaluate_candidate env resume_text tech_stack difficulty
                    question_count answers) ;;
  status <- lift (py_getitem result $"status") ;;
  (if py_eq_str status $"error"
   then
     detail <- lift (py_getitem result $"error") ;;
     raise (HTTPException HTTP_500_INTERNAL_SERVER_ERROR detail)
   else ret tt) ;;;
  ret (Return result).

Definition complete_evaluation (file : UploadFile) (tech_stack : pystr)
  (difficulty question_count : Z) (answers : list (pystr * pystr)) : M result :=
  top_level $"complete_evaluation"
    (raise_if (negb (is_pdf_content_type (content_type file)))
       (HTTPException HTTP_415_UNSUPPORTED_MEDIA_TYPE
          (VStr $"File is not a valid PDF")) ;;;
     pdf_data <- file_read file ;;
     resume_text <- extract_resume_text pdf_data ;;
     checked <- validate_inputs tech_stack difficulty question_count answers ;;
     perform_evaluation resume_text tech_stack (fst checked) (snd checked) answers).

End Handlers.

Arguments PyStr.lit : simpl never.
Arguments PyStr.of_nat : simpl never.

(** ** Concrete collaborators, for running the handlers on examples *)

Definition quoted (s : pystr) : pystr := (34%N :: s) ++ [34%N].

(** A [json.loads] that knows a few documents. *)
Definition loads_table (tbl : list (pystr * pyval)) (s : pystr) : exn + pyval :=
  match dict_get s tbl with
  | Some v => inr v
  | None => inl (PyExc JSONDecodeError $"Expecting value: line 1 column 1 (char 0)")
  end.

Definition sample_documents : list (pystr * pyval) :=
  [ ($"{}", VDict []);
    ($"{" ++ quoted $"techStack" ++ $": " ++ quoted $"Python" ++ $"}",
     VDict [($"techStack", VStr $"Python")]);
    ($"{" ++ quoted $"techStack" ++ $": " ++ quoted $"Python" ++ $", "
         ++ quoted $"difficultyLevel" ++ $": 3, "
         ++ quoted $"questionCount" ++ $": 5}",
     VDict [($"techStack", VStr $"Python");
            ($"difficultyLevel", VInt 3);
            ($"questionCount", VInt 5)]);
    ($"5", VInt 5) ].

(** Collaborators that answer with fixed values: the pages of every
    document, the questions for every prompt, the score of every answer
    set and the result of the combined procedure. *)
Definition fixed_env (pages : list pystr) (questions : list pystr)
  (score : pyval) (candidate : pyval) : collaborators :=
  {| json_loads := loads_table sample_documents;
     fitz_open := fun _ => inr (map inr pages);
     prepare_prompt := fun resume _ _ _ => inr ($"Questions for: " ++ resume);
     get_questions := fun _ => inr questions;
     prepare_prompt_for_answercheck := fun _ => inr $"Score these answers";
     get_evaluation := fun _ => inr score;
     get_feedback_for_score := fun _ => inr $"Good";
     evaluate_candidate := fun _ _ _ _ _ => inr candidate;
     http_exception_str := fun s d =>
       PyStr.of_Z s ++ $": " ++ match d with VStr m => m | _ => [] end |}.

Definition pdf_file (bytes : list N) : UploadFile :=
  {| content_type := Some $"application/pdf";
     filename := Some $"resume.pdf";
     content := bytes |}.

Definition text_file (bytes : list N) : UploadFile :=
  {| content_type := Some $"text/plain";
     filename := Some $"resume.txt";
     content := bytes |}.

Definition status_of (r : exn + result) : option Z :=
  match r with
  | inl (HTTPException s _) => Some s
  | inl (PyExc _ _) => None
  | inr (Return _) => Some 200
  | inr (JSONResponse s _) => Some s
  end.

(** ** Vocabulary of the properties *)

Definition page_events (start n : nat) : list event :=
  map EvGetText (seq start n).

Definition unextractable : exn :=
  HTTPException HTTP_422_UNPROCESSABLE_ENTITY
    (VStr $"Could not extract text from PDF. The file may be empty or corrupted.").

Definition not_a_pdf : exn :=
  HTTPException HTTP_415_UNSUPPORTED_MEDIA_TYPE (VStr $"File is not a valid PDF").

(** The first required key, in the order of the source, that an object
    does not have. *)
Definition first_missing (fields : list pystr) (kvs : list (pystr * pyval))
  : option pystr :=
  find (fun f => negb (dict_has f kvs)) fields.

Definition missing_field (f : pystr) : exn :=
  HTTPException HTTP_400_BAD_REQUEST (VStr ($"Missing required field: " ++ f)).

Definition no_parameters : exn :=
  HTTPException HTTP_400_BAD_REQUEST (VStr $"Missing required parameters in JSON data").

(** An answer the emptiness test counts: a false value, or a string made of
    whitespace only. *)
Definition empty_value (a : pyval) : bool :=
  negb (truthy a) ||
  match a with VStr s => forallb PyStr.isspace s | _ => false end.

(** An answer on which the emptiness test raises: a true value that is not
    a string. *)
Definition unstrippable (a : pyval) : bool := truthy a && negb (is_str a).

Definition count_empty (items : list (pystr * pyval)) : nat :=
  List.length (filter (fun qa => empty_value (snd qa)) items).

Definition no_strip (a : pyval) : exn :=
  PyExc AttributeError ($"'" ++ type_name a ++ $"' object has no attribute 'strip'").

Definition empty_answers_error (n : nat) : exn :=
  HTTPException HTTP_400_BAD_REQUEST
    (VStr ($"Empty answers provided for " ++ PyStr.of_nat n ++ $" questions")).

(** A payload of POST /questions that the block "Parse JSON data" refuses. *)
Inductive rejected_payload (env : collaborators) : option pystr -> Prop :=
| payload_absent : rejected_payload env None
| payload_empty : rejected_payload env (Some [])
| payload_undecodable (s m : pystr) :
    PyStr.truthy s = true ->
    json_loads env s = inl (PyExc JSONDecodeError m) ->
    rejected_payload env (Some s)
| payload_false (s : pystr) (v : pyval) :
    PyStr.truthy s = true ->
    json_loads env s = inr v ->
    truthy v = false ->
    rejected_payload env (Some s)
| payload_missing_key (s : pystr) (kvs : list (pystr * pyval)) (f : pystr) :
    PyStr.truthy s = true ->
    json_loads env s = inr (VDict kvs) ->
    In f required_fields ->
    dict_has f kvs = false ->
    rejected_payload env (Some s).

Definition is_dict (v : pyval) : bool :=
  match v with VDict _ => true | _ => false end.

(** A body of POST /check-answers that the validation refuses. *)
Inductive rejected_answers : pyval -> Prop :=
| answers_not_a_mapping (v : pyval) :
    is_dict v = false -> rejected_answers v
| answers_no_pairs : rejected_answers (VDict [])
| answers_some_empty (items : list (pystr * pyval)) (q : pystr) (a : pyval) :
    (forall q' a', In (q', a') items -> unstrippable a' = false) ->
    In (q, a) items ->
    empty_value a = true ->
    rejected_answers (VDict items).

(** Inputs of POST /complete-evaluation that the block "Validate inputs"
    refuses. *)
Definition invalid_inputs (tech_stack : pystr) (difficulty question_count : Z)
  (answers : list (pystr * pystr)) : Prop :=
  forallb PyStr.isspace tech_stack = true \/
  difficulty < 1 \/ 5 < difficulty \/
  question_count < 1 \/ 20 < question_count \/
  answers = [].

Definition answered_400 (m : M result) : Prop :=
  exists detail, outcome m = inl (HTTPException HTTP_400_BAD_REQUEST detail).

(** The request ends with a 400 and neither the extractor nor the
    evaluation client was called. *)
Definition refused_before_calls (m : M result) : Prop :=
  answered_400 m /\
  extractor_calls (trace_of m) = [] /\
  evaluation_calls (trace_of m) = [].

(** The request ends with a 400 after the calls [ex] to the extractor and
    without a call to the evaluation client. *)
Definition refused_after_extraction (ex : list event) (m : M result) : Prop :=
  answered_400 m /\
  extractor_calls (trace_of m) = ex /\
  evaluation_calls (trace_of m) = [].

(** The reading of the specification: in POST /complete-evaluation an
    out-of-range difficulty or question count is refused before the extractor
    or the evaluation client is called. *)
Definition range_check_precedes_extraction : Prop :=
  forall env file tech_stack difficulty question_count answers,
    difficulty < 1 \/ 5 < difficulty \/
    question_count < 1 \/ 20 < question_count ->
    refused_before_calls
      (complete_evaluation env file tech_stack difficulty question_count answers).

(** The reading of the specification: an answer map with a blank answer is
    always refused with a 400. *)
Definition blank_answer_always_400 : Prop :=
  forall env items,
    (exists q s, In (q, VStr s) items /\ forallb PyStr.isspace s = true) ->
    status_of (outcome (check_answers env (VDict items)))
    = Some HTTP_400_BAD_REQUEST.

(** The reading of the specification: a JSON object without one of the
    required keys is refused with a 400 whose detail names a missing key. *)
Definition missing_key_always_named : Prop :=
  forall env file s kvs,
    is_pdf_content_type (content_type file) = true ->
    json_loads env s = inr (VDict kvs) ->
    (exists f, In f required_fields /\ dict_has f kvs = false) ->
    exists g detail,
      In g required_fields /\ dict_has g kvs = false /\
      outcome (langchain_questions env file (Some s))
      = inl (HTTPException HTTP_400_BAD_REQUEST (VStr detail)) /\
      PyStr.substrb g detail = true.

(** ** Sample requests *)

Definition resume_pages : list pystr := [$"Experienced Python developer"; $" "].

Definition scanned_pages : list pystr := [$" "; []].

Definition success_result : pyval :=
  VDict [($"status", VStr $"success"); ($"score", VInt 80)].

Definition error_result : pyval :=
  VDict [($"status", VStr $"error"); ($"error", VStr $"backend unavailable")].

Definition sample_env : collaborators :=
  fixed_env resume_pages [$"What is a closure?"; $"What is a decorator?"]
    (VInt 80) success_result.

Definition scanned_env : collaborators :=
  fixed_env scanned_pages [] (VInt 80) error_result.

Definition failing_env : collaborators :=
  fixed_env resume_pages [] (VInt 80) error_result.

Definition full_payload : pystr :=
  $"{" ++ quoted $"techStack" ++ $": " ++ quoted $"Python" ++ $", "
       ++ quoted $"difficultyLevel" ++ $": 3, "
       ++ quoted $"questionCount" ++ $": 5}".

Definition partial_payload : pystr :=
  $"{" ++ quoted $"techStack" ++ $": " ++ quoted $"Python" ++ $"}".

Definition sample_answers : list (pystr * pystr) :=
  [($"What is a closure?", $"A function with its environment")].

(** ** Vocabulary of the further properties *)

Definition is_log (e : event) : bool :=
  match e with EvLog _ _ => true | _ => false end.

(** The calls the extraction block can make: PyMuPDF and the logger. *)
Definition extraction_event (e : event) : bool :=
  is_extractor_call e || is_log e.

(** The arguments of a call to [evaluate_candidate] went through the
    extraction and through the block "Validate inputs". *)
Definition validated_call (e : event) : Prop :=
  match e with
  | EvEvaluateCandidate resume tech_stack difficulty question_count answers =>
      forallb PyStr.isspace resume = false /\
      forallb PyStr.isspace tech_stack = false /\
      1 <= difficulty <= 5 /\
      1 <= question_count <= 20 /\
      answers <> []
  | _ => True
  end.

(** An answer map that the validation of POST /check-answers lets through. *)
Definition answered_items (items : list (pystr * pyval)) : Prop :=
  items <> [] /\
  forall q a, In (q, a) items ->
    exists s, a = VStr s /\ forallb PyStr.isspace s = false.

(** The prompt builder of POST /questions is given a text that is not blank. *)
Definition prompt_from_text (e : event) : Prop :=
  match e with
  | EvPreparePrompt resume _ _ _ => forallb PyStr.isspace resume = false
  | _ => True
  end.

(** A JSON value on which [in] raises: neither an object, an array nor a
    string. *)
Definition is_scalar (v : pyval) : bool :=
  match v with
  | VDict _ | VList _ | VStr _ => false
  | _ => true
  end.

(** [json.loads] raises no [HTTPException]. *)
Definition loads_raises_no_http (env : collaborators) : Prop :=
  forall s code detail, json_loads env s <> inl (HTTPException code detail).

(** The functions of [api_request] that POST /check-answers calls raise no
    [HTTPException]. *)
Definition scoring_raises_no_http (env : collaborators) : Prop :=
  (forall items code detail,
     prepare_prompt_for_answercheck env items <> inl (HTTPException code detail)) /\
  (forall prompt code detail,
     get_evaluation env prompt <> inl (HTTPException code detail)) /\
  (forall score code detail,
     get_feedback_for_score env score <> inl (HTTPException code detail)).

(** [evaluate_candidate] raises no [HTTPException]. *)
Definition candidate_raises_no_http (env : collaborators) : Prop :=
  forall resume tech_stack difficulty question_count answers code detail,
    evaluate_candidate env resume tech_stack difficulty question_count answers
    <> inl (HTTPException code detail).

(** Collaborators whose language model fails: the questions and the score
    raise [e]. *)
Definition backend_env (e : exn) : collaborators :=
  {| json_loads := loads_table sample_documents;
     fitz_open := fun _ => inr (map inr resume_pages);
     prepare_prompt := fun resume _ _ _ => inr ($"Questions for: " ++ resume);
     get_questions := fun _ => inl e;
     prepare_prompt_for_answercheck := fun _ => inr $"Score these answers";
     get_evaluation := fun _ => inl e;
     get_feedback_for_score := fun _ => inr $"Good";
     evaluate_candidate := fun _ _ _ _ _ => inl e;
     http_exception_str := fun s d =>
       PyStr.of_Z s ++ $": " ++ match d with VStr m => m | _ => [] end |}.

(** Collaborators that decode every payload to the value [v]. *)
Definition payload_env (v : pyval) : collaborators :=
  {| json_loads := fun _ => inr v;
     fitz_open := fun _ => inr (map inr resume_pages);
     prepare_prompt := fun resume _ _ _ => inr ($"Questions for: " ++ resume);
     get_questions := fun _ => inr [$"What is a closure?"];
     prepare_prompt_for_answercheck := fun _ => inr $"Score these answers";
     get_evaluation := fun _ => inr (VInt 80);
     get_feedback_for_score := fun _ => inr $"Good";
     evaluate_candidate := fun _ _ _ _ _ => inr success_result;
     http_exception_str := fun s d =>
       PyStr.of_Z s ++ $": " ++ match d with VStr m => m | _ => [] end |}.

Definition extraction_failed (m : pystr) : exn :=
  HTTPException HTTP_500_INTERNAL_SERVER_ERROR (VStr ($"Failed to process PDF: " ++ m)).

(** What POST /check-answers answers when its evaluation block raises [e]. *)
Definition scoring_error (e : exn) : exn :=
  match e with
  | HTTPException code detail => HTTPException code detail
  | PyExc EvaluationError m =>
      HTTPException HTTP_500_INTERNAL_SERVER_ERROR (VStr ($"Evaluation failed: " ++ m))
  | PyExc _ m =>
      HTTPException HTTP_500_INTERNAL_SERVER_ERROR
        (VStr ($"An unexpected error occurred: " ++ m))
  end.

(** What POST /check-answers logs when its evaluation block raises [e]. *)
Definition scoring_log (e : exn) : list event :=
  match e with
  | HTTPException _ _ => []
  | PyExc EvaluationError m => [EvLog ERROR ($"Evaluation error: " ++ m)]
  | PyExc _ m =>
      [EvLog ERROR ($"Unexpected error in " ++ $"check_answers" ++ $": " ++ m)]
  end.

(** The evaluation block of POST /check-answers raises [e] after the calls
    [calls]: the prompt builder, the evaluation client or the feedback
    function fails. *)
Inductive scoring_fails (env : collaborators) (items : list (pystr * pyval))
  : list event -> exn -> Prop :=
| prompt_fails (e : exn) :
    prepare_prompt_for_answercheck env items = inl e ->
    scoring_fails env items [EvPreparePromptForAnswercheck items] e
| evaluation_fails (prompt : pystr) (e : exn) :
    prepare_prompt_for_answercheck env items = inr prompt ->
    get_evaluation env prompt = inl e ->
    scoring_fails env items
      [EvPreparePromptForAnswercheck items; EvGetEvaluation prompt] e
| feedback_fails (prompt : pystr) (score : pyval) (e : exn) :
    prepare_prompt_for_answercheck env items = inr prompt ->
    get_evaluation env prompt = inr score ->
    get_feedback_for_score env score = inl e ->
    scoring_fails env items
      [EvPreparePromptForAnswercheck items; EvGetEvaluation prompt;
       EvGetFeedbackForScore score] e.

(** The status codes of POST /check-answers. *)
Definition check_answers_codes : list Z := [200; 400; 500].

(** The status codes of POST /complete-evaluation. *)
Definition complete_evaluation_codes : list Z := [200; 400; 415; 500].

(** The status codes of POST /questions. *)
Definition questions_codes : list Z := [200; 204; 400; 415; 500].

Definition answers_with (code : Z) (codes : list Z) (r : exn + result) : Prop :=
  status_of r = Some code /\ In code codes.

(** PyMuPDF raises [e] after the calls [calls]: the document cannot be
    opened, or the text of a page cannot be read after the pages before it
    were read. *)
Inductive extraction_fails (env : collaborators) (pdf_data : list N)
  : list event -> exn -> Prop :=
| open_fails (e : exn) :
    fitz_open env pdf_data = inl e ->
    extraction_fails env pdf_data [EvFitzOpen pdf_data] e
| page_fails (texts : list pystr) (e : exn) (rest : list (exn + pystr)) :
    fitz_open env pdf_data = inr (map inr texts ++ inl e :: rest) ->
    extraction_fails env pdf_data
      (EvFitzOpen pdf_data :: page_events 0 (S (List.length texts))) e.

(** A payload of POST /questions that goes through the block "Parse JSON
    data": an object with the three required keys. *)
Definition accepted_payload (env : collaborators) (data : option pystr)
  (kvs : list (pystr * pyval)) : Prop :=
  exists s,
    data = Some s /\ PyStr.truthy s = true /\
    json_loads env s = inr (VDict kvs) /\
    forall f, In f required_fields -> dict_has f kvs = true.

(** Collaborators whose document has a page that cannot be read. *)
Definition torn_env (e : exn) : collaborators :=
  {| json_loads := loads_table sample_documents;
     fitz_open := fun _ => inr (map inr resume_pages ++ [inl e; inr $"never read"]);
     prepare_prompt := fun resume _ _ _ => inr ($"Questions for: " ++ resume);
     get_questions := fun _ => inr [$"What is a closure?"];
     prepare_prompt_for_answercheck := fun _ => inr $"Score these answers";
     get_evaluation := fun _ => inr (VInt 80);
     get_feedback_for_score := fun _ => inr $"Good";
     evaluate_candidate := fun _ _ _ _ _ => inr success_result;
     http_exception_str := fun s d =>
       PyStr.of_Z s ++ $": " ++ match d with VStr m => m | _ => [] end |}.

Definition full_object : list (pystr * pyval) :=
  [($"techStack", VStr $"Python"); ($"difficultyLevel", VInt 3);
   ($"questionCount", VInt 5)].

(** The calls the block "Generate questions" makes to the functions of
    [api_request], for the resume text [text]: none, the prompt builder, or
    the prompt builder and then the evaluation client. *)
Inductive generation_calls (text : pystr) : list event -> Prop :=
| no_generation_call : generation_calls text []
| prompt_call (tech_stack difficulty question_count : pyval) :
    generation_calls text
      [EvPreparePrompt text tech_stack difficulty question_count]
| questions_call (tech_stack difficulty question_count : pyval) (prompt : pystr) :
    generation_calls text
      [EvPreparePrompt text tech_stack difficulty question_count;
       EvLog INFO ($"Generated prompt for questions, length: "
                   ++ PyStr.of_nat (List.length prompt));
       EvGetQuestions prompt].

(** What the block "Generate questions" hands back. *)
Inductive generation_answer : exn + result -> Prop :=
| answer_questions (body : pyval) : generation_answer (inr (Return body))
| answer_no_questions : generation_answer (inr no_questions_response)
| answer_400 (detail : pyval) :
    generation_answer (inl (HTTPException HTTP_400_BAD_REQUEST detail))
| answer_500 (detail : pyval) :
    generation_answer (inl (HTTPException HTTP_500_INTERNAL_SERVER_ERROR detail)).

(** What POST /questions answers when its generation block raises [e]. *)
Definition generation_error (env : collaborators) (e : exn) : exn :=
  if is_ValueError e
  then HTTPException HTTP_400_BAD_REQUEST (VStr (exn_str env e))
  else HTTPException HTTP_500_INTERNAL_SERVER_ERROR
         (VStr ($"Failed to generate questions: " ++ exn_str env e)).

(** What POST /questions logs when its generation block raises [e]. *)
Definition generation_log (env : collaborators) (e : exn) : list event :=
  if is_ValueError e then []
  else [EvLog ERROR ($"Error generating questions: " ++ exn_str env e)].

(** The generation block of POST /questions raises [e] after the calls
    [calls]: the prompt builder or the evaluation client fails. *)
Inductive generation_fails (env : collaborators) (text : pystr)
  (kvs : list (pystr * pyval)) : list event -> exn -> Prop :=
| prepare_prompt_fails (tech_stack difficulty question_count : pyval) (e : exn) :
    dict_get $"techStack" kvs = Some tech_stack ->
    dict_get $"difficultyLevel" kvs = Some difficulty ->
    dict_get $"questionCount" kvs = Some question_count ->
    prepare_prompt env text tech_stack difficulty question_count = inl e ->
    generation_fails env text kvs
      [EvPreparePrompt text tech_stack difficulty question_count] e
| get_questions_fails (tech_stack difficulty question_count : pyval)
    (prompt : pystr) (e : exn) :
    dict_get $"techStack" kvs = Some tech_stack ->
    dict_get $"difficultyLevel" kvs = Some difficulty ->
    dict_get $"questionCount" kvs = Some question_count ->
    prepare_prompt env text tech_stack difficulty question_count = inr prompt ->
    get_questions env prompt = inl e ->
    generation_fails env text kvs
      [EvPreparePrompt text tech_stack difficulty question_count;
       EvLog INFO ($"Generated prompt for questions, length: "
                   ++ PyStr.of_nat (List.length prompt));
       EvGetQuestions prompt] e.

(** A JSON array or string in which [in] finds the three required names,
    although it has no keys. *)
Definition keyless_with_names (v : pyval) : Prop :=
  forall f, In f required_fields ->
    match v with
    | VList l => existsb (fun x => py_eq_str x f) l = true
    | VStr s => PyStr.substrb f s = true
    | _ => False
    end.

(** An event that is neither a call to a prompt builder nor a call to the
    evaluation client. *)
Definition quiet (e : event) : bool :=
  negb (is_prompt_call e) && negb (is_evaluation_call e).

Definition rate_limited : exn := PyExc EvaluationError $"rate limit exceeded".

Definition bad_backend_json : exn :=
  PyExc JSONDecodeError $"Expecting value: line 1 column 1 (char 0)".

Definition torn_page : exn := PyExc OtherError $"cannot read page".

Definition closure_answer : list (pystr * pyval) :=
  [($"What is a closure?", VStr $"A function with its environment")].

Definition names_array : pyval :=
  VList [VStr $"techStack"; VStr $"difficultyLevel"; VStr $"questionCount"].

(** ** Laws of the handler monad *)

Lemma bind_ret {A B : Type} (a : A) (f : A -> M B) : bind (ret a) f = f a.
Proof. unfold bind, ret. now destruct (f a). Qed.

Lemma bind_raise {A B : Type} (e : exn) (f : A -> M B) :
  bind (raise e) f = raise e.
Proof. reflexivity. Qed.

Lemma bind_lift_inr {A B : Type} (a : A) (f : A -> M B) :
  bind (lift (inr a)) f = f a.
Proof. apply bind_ret. Qed.

Lemma bind_lift_inl {A B : Type} (e : exn) (f : A -> M B) :
  bind (lift (inl e)) f = raise e.
Proof. reflexivity. Qed.

Lemma bind_value {A B : Type} (t : list event) (a : A) (f : A -> M B) :
  bind (t, inr a) f = (t ++ fst (f a), snd (f a)).
Proof. unfold bind. now destruct (f a). Qed.

Lemma bind_error {A B : Type} (t : list event) (e : exn) (f : A -> M B) :
  bind (t, inl e) f = (t, inl e).
Proof. reflexivity. Qed.

Lemma bind_call_inr {A B : Type} (ev : event) (a : A) (f : A -> M B) :
  bind (call ev (inr a)) f = (ev :: fst (f a), snd (f a)).
Proof. unfold call. now rewrite bind_value. Qed.

Lemma bind_call_inl {A B : Type} (ev : event) (e : exn) (f : A -> M B) :
  bind (call ev (inl e)) f = ([ev], inl e).
Proof. reflexivity. Qed.

Lemma bind_log {B : Type} (l : log_level) (m : pystr) (f : unit -> M B) :
  bind (log l m) f = (EvLog l m :: fst (f tt), snd (f tt)).
Proof. unfold log. now rewrite bind_value. Qed.

Lemma raise_if_true (e : exn) : raise_if true e = raise e.
Proof. reflexivity. Qed.

Lemma raise_if_false (e : exn) : raise_if false e = ret tt.
Proof. reflexivity. Qed.

Lemma try_except_value {A : Type} (t : list event) (a : A) (h : exn -> M A) :
  try_except (t, inr a) h = (t, inr a).
Proof. reflexivity. Qed.

Lemma try_except_error {A : Type} (t : list event) (e : exn) (h : exn -> M A) :
  try_except (t, inl e) h = (t ++ fst (h e), snd (h e)).
Proof. unfold try_except. now destruct (h e). Qed.

Lemma try_except_raise {A : Type} (e : exn) (h : exn -> M A) :
  try_except (raise e) h = h e.
Proof. unfold raise. rewrite try_except_error. now destruct (h e). Qed.

Lemma pair_eta {A : Type} (m : M A) : (fst m, snd m) = m.
Proof. now destruct m. Qed.

(** ** Facts about strings *)

Lemma lstrip_nil (s : pystr) :
  PyStr.lstrip s = [] <-> forallb PyStr.isspace s = true.
Proof.
  induction s as [|c r IH]; simpl.
  - tauto.
  - destruct (PyStr.isspace c); simpl.
    + exact IH.
    + split; discriminate.
Qed.

Lemma lstrip_forallb (s : pystr) :
  forallb PyStr.isspace (PyStr.lstrip s) = true -> PyStr.lstrip s = [].
Proof.
  induction s as [|c r IH]; simpl; trivial.
  destruct (PyStr.isspace c) eqn:E; trivial.
  simpl. rewrite E. discriminate.
Qed.

Lemma forallb_rev {A : Type} (p : A -> bool) (l : list A) :
  forallb p (rev l) = forallb p l.
Proof.
  induction l as [|a l IH]; simpl; trivial.
  rewrite forallb_app, IH. simpl. rewrite andb_true_r. apply andb_comm.
Qed.

Lemma rev_nil_inv {A : Type} (l : list A) : rev l = [] -> l = [].
Proof.
  intro H. apply (f_equal (@rev A)) in H. now rewrite rev_involutive in H.
Qed.

Lemma strip_nil (s : pystr) :
  PyStr.strip s = [] <-> forallb PyStr.isspace s = true.
Proof.
  unfold PyStr.strip, PyStr.rstrip. split.
  - intro H. apply rev_nil_inv in H. apply lstrip_nil in H.
    rewrite forallb_rev in H. apply lstrip_forallb in H.
    now apply lstrip_nil.
  - intro H. apply lstrip_nil in H. rewrite H. reflexivity.
Qed.

(** [not s.strip()] holds exactly of the strings made of whitespace only. *)
Lemma blank_whitespace (s : pystr) :
  PyStr.blank s = forallb PyStr.isspace s.
Proof.
  unfold PyStr.blank.
  destruct (forallb PyStr.isspace s) eqn:E.
  - apply strip_nil in E. now rewrite E.
  - destruct (PyStr.strip s) eqn:S; trivial.
    apply strip_nil in S. congruence.
Qed.

Lemma eqb_eq (a b : pystr) : PyStr.eqb a b = true <-> a = b.
Proof.
  unfold PyStr.eqb. destruct (list_eq_dec N.eq_dec a b); split; congruence.
Qed.

Lemma eqb_refl (a : pystr) : PyStr.eqb a a = true.
Proof. now apply eqb_eq. Qed.

(** ** Facts about the stages of the handlers *)

Section Stages.

Variable env : collaborators.

Lemma read_pages_ok (texts : list pystr) (n : nat) (acc : pystr) :
  read_pages (map inr texts) n acc
  = (page_events n (List.length texts), inr (acc ++ concat texts)).
Proof.
  revert n acc. induction texts as [|t r IH]; intros n acc; simpl.
  - now rewrite app_nil_r.
  - unfold bind, call. rewrite IH. unfold page_events. simpl.
    now rewrite <- app_assoc.
Qed.

(** When every page yields its text and that text is not blank, the
    extraction block returns it. *)
Lemma extract_text_ok (pdf_data : list N) (texts : list pystr) :
  fitz_open env pdf_data = inr (map inr texts) ->
  PyStr.blank (concat texts) = false ->
  extract_resume_text env pdf_data
  = (EvFitzOpen pdf_data :: page_events 0 (List.length texts),
     inr (concat texts)).
Proof.
  intros Ho Hb. unfold extract_resume_text, call. rewrite Ho.
  unfold bind at 1. rewrite read_pages_ok.
  change ([] ++ concat texts) with (concat texts).
  unfold bind, raise_if. rewrite Hb. simpl. now rewrite !app_nil_r.
Qed.

(** When the text is blank, the 422 raised inside the block is caught by the
    block's own [except Exception] and replaced by a 500. *)
Lemma extract_text_blank (pdf_data : list N) (texts : list pystr) :
  fitz_open env pdf_data = inr (map inr texts) ->
  PyStr.blank (concat texts) = true ->
  extract_resume_text env pdf_data
  = ((EvFitzOpen pdf_data :: page_events 0 (List.length texts))
       ++ [EvLog ERROR ($"Error processing PDF: " ++ exn_str env unextractable)],
     inl (HTTPException HTTP_500_INTERNAL_SERVER_ERROR
            (VStr ($"Failed to process PDF: " ++ exn_str env unextractable)))).
Proof.
  intros Ho Hb. unfold extract_resume_text, call. rewrite Ho.
  unfold bind at 1. rewrite read_pages_ok.
  change ([] ++ concat texts) with (concat texts).
  unfold bind, raise_if. rewrite Hb. simpl. now rewrite !app_nil_r.
Qed.

End Stages.

(** ** Content type *)

Lemma is_pdf_content_type_spec (ct : option pystr) :
  is_pdf_content_type ct = true
  <-> exists c, ct = Some c /\ In c pdf_content_types.
Proof.
  unfold is_pdf_content_type. destruct ct as [c|].
  - rewrite existsb_exists. split.
    + intros [x [Hin Heq]]. apply eqb_eq in Heq. subst x. eauto.
    + intros [c' [Hc Hin]]. injection Hc as <-.
      exists c. split; trivial. apply eqb_refl.
  - split; [discriminate | intros [c [H _]]; discriminate].
Qed.

Lemma not_pdf_content_type (ct : option pystr) :
  (forall c, ct = Some c -> ~ In c pdf_content_types) ->
  is_pdf_content_type ct = false.
Proof.
  intro H. destruct (is_pdf_content_type ct) eqn:E; trivial.
  apply is_pdf_content_type_spec in E. destruct E as [c [Hc Hin]].
  now destruct (H c Hc).
Qed.

(** ** The payload of POST /questions *)

Lemma check_required_object (kvs : list (pystr * pyval)) (fields : list pystr) :
  check_required (VDict kvs) fields
  = ([], match first_missing fields kvs with
         | Some f => inl (missing_field f)
         | None => inr tt
         end).
Proof.
  induction fields as [|f r IH]; simpl; trivial.
  unfold first_missing in *. simpl.
  destruct (dict_has f kvs); simpl.
  - rewrite IH. reflexivity.
  - reflexivity.
Qed.

Lemma first_missing_some (fields : list pystr) (kvs : list (pystr * pyval)) (f : pystr) :
  In f fields -> dict_has f kvs = false ->
  exists g, first_missing fields kvs = Some g.
Proof.
  intros Hin Hf. unfold first_missing.
  destruct (find _ fields) as [g|] eqn:E; eauto.
  apply (find_none _ _ E) in Hin. rewrite Hf in Hin. discriminate.
Qed.

Lemma first_missing_is_missing (fields : list pystr) (kvs : list (pystr * pyval))
  (g : pystr) :
  first_missing fields kvs = Some g -> In g fields /\ dict_has g kvs = false.
Proof.
  intro H. apply find_some in H. destruct H as [Hin Hb].
  split; trivial. now destruct (dict_has g kvs).
Qed.

Section Payload.

Variable env : collaborators.

Lemma parse_json_data_object (s : pystr) (kvs : list (pystr * pyval)) :
  PyStr.truthy s = true ->
  json_loads env s = inr (VDict kvs) ->
  kvs <> [] ->
  parse_json_data env (Some s)
  = ([], match first_missing required_fields kvs with
         | Some f => inl (missing_field f)
         | None => inr (VDict kvs)
         end).
Proof.
  intros Hs Hl Hk. unfold parse_json_data. rewrite Hs. unfold lift. rewrite Hl.
  destruct kvs as [|kv kvs']; [congruence|].
  unfold bind at 1. simpl truthy. simpl raise_if.
  unfold bind at 1. rewrite check_required_object.
  destruct (first_missing required_fields (kv :: kvs')); reflexivity.
Qed.

Lemma parse_json_data_absent (data : option pystr) :
  data = None \/ data = Some [] ->
  parse_json_data env data = ([], inl no_parameters).
Proof. intros [-> | ->]; reflexivity. Qed.

Lemma parse_json_data_falsy (s : pystr) (v : pyval) :
  PyStr.truthy s = true ->
  json_loads env s = inr v ->
  truthy v = false ->
  parse_json_data env (Some s) = ([], inl no_parameters).
Proof.
  intros Hs Hl Hv. unfold parse_json_data. rewrite Hs. unfold lift. rewrite Hl.
  unfold bind at 1. rewrite Hv. reflexivity.
Qed.

Lemma parse_json_data_undecodable (s m : pystr) :
  PyStr.truthy s = true ->
  json_loads env s = inl (PyExc JSONDecodeError m) ->
  parse_json_data env (Some s)
  = ([], inl (HTTPException HTTP_400_BAD_REQUEST (VStr $"Invalid JSON data format"))).
Proof.
  intros Hs Hl. unfold parse_json_data. rewrite Hs. unfold lift. rewrite Hl.
  reflexivity.
Qed.

(** Whatever makes the payload block raise ends the request, after the
    file was read and before anything else is called. *)
Lemma questions_payload_rejected (file : UploadFile) (data : option pystr)
  (code : Z) (detail : pyval) :
  is_pdf_content_type (content_type file) = true ->
  parse_json_data env data = ([], inl (HTTPException code detail)) ->
  langchain_questions env file data
  = ([EvFileRead], inl (HTTPException code detail)).
Proof.
  intros Hct Hp. unfold langchain_questions. rewrite Hct.
  unfold top_level, file_read, call. simpl negb. simpl raise_if.
  unfold bind at 3. unfold bind at 2. rewrite Hp.
  reflexivity.
Qed.

End Payload.

(** ** The answers of POST /check-answers *)

Lemma is_empty_answer_ok (a : pyval) :
  unstrippable a = false -> is_empty_answer a = ([], inr (empty_value a)).
Proof.
  unfold unstrippable, is_empty_answer, empty_value.
  destruct (truthy a) eqn:T; simpl; trivial.
  destruct a; simpl; try discriminate. intros _.
  now rewrite <- blank_whitespace.
Qed.

Lemma is_empty_answer_raises (a : pyval) :
  unstrippable a = true -> is_empty_answer a = ([], inl (no_strip a)).
Proof.
  unfold unstrippable, is_empty_answer.
  destruct (truthy a) eqn:T; simpl; try discriminate.
  destruct a; simpl; try discriminate; reflexivity.
Qed.

Lemma empty_answers_ok (items : list (pystr * pyval)) :
  (forall q a, In (q, a) items -> unstrippable a = false) ->
  empty_answers items
  = ([], inr (map fst (filter (fun qa => empty_value (snd qa)) items))).
Proof.
  induction items as [|[q a] r IH]; intro H; simpl; trivial.
  rewrite (is_empty_answer_ok a) by (apply (H q); now left).
  unfold bind at 1. rewrite IH by (intros q' a' Hin; apply (H q'); now right).
  simpl. destruct (empty_value a); reflexivity.
Qed.

Lemma empty_answers_raises (items : list (pystr * pyval)) :
  (exists q a, In (q, a) items /\ unstrippable a = true) ->
  exists q a, In (q, a) items /\ unstrippable a = true /\
              empty_answers items = ([], inl (no_strip a)).
Proof.
  induction items as [|[q a] r IH]; intros [q0 [a0 [Hin Hu]]].
  - destruct Hin.
  - simpl. destruct (unstrippable a) eqn:U.
    + exists q, a. split; [now left|]. split; trivial.
      now rewrite is_empty_answer_raises.
    + destruct Hin as [Heq | Hin]; [injection Heq as -> ->; congruence|].
      destruct IH as [q1 [a1 [Hin1 [Hu1 He]]]]; [eauto|].
      exists q1, a1. split; [now right|]. split; trivial.
      rewrite is_empty_answer_ok by trivial.
      unfold bind at 1. rewrite He. reflexivity.
Qed.

Lemma filter_nonempty {A : Type} (p : A -> bool) (l : list A) (x : A) :
  In x l -> p x = true -> filter p l <> [].
Proof.
  intros Hin Hp Hf.
  assert (In x (filter p l)) as Hx by (apply filter_In; now split).
  rewrite Hf in Hx. destruct Hx.
Qed.

Lemma filter_empty {A : Type} (p : A -> bool) (l : list A) :
  (forall x, In x l -> p x = false) -> filter p l = [].
Proof.
  induction l as [|a l IH]; intro H; simpl; trivial.
  rewrite (H a) by now left. apply IH. intros x Hx. apply H. now right.
Qed.

Section Answers.

Variable env : collaborators.

Lemma truthy_items (items : list (pystr * pyval)) :
  items <> [] -> truthy (VDict items) = true.
Proof. destruct items; [congruence | reflexivity]. Qed.

(** The request is refused with the number of empty answers when no
    answer makes the test raise and one is empty. *)
Lemma check_answers_empty (items : list (pystr * pyval)) :
  (forall q a, In (q, a) items -> unstrippable a = false) ->
  (exists q a, In (q, a) items /\ empty_value a = true) ->
  check_answers env (VDict items) = ([], inl (empty_answers_error (count_empty items))).
Proof.
  intros Hs [q [a [Hin He]]].
  assert (items <> []) as Hne by (intros ->; destruct Hin).
  unfold check_answers, top_level.
  rewrite bind_ret, truthy_items by trivial.
  cbn [negb]. rewrite raise_if_false, bind_ret.
  rewrite empty_answers_ok by trivial.
  rewrite bind_value.
  unfold count_empty.
  destruct (filter (fun qa => empty_value (snd qa)) items) as [|x l] eqn:F.
  - exfalso. revert F. now apply (filter_nonempty _ _ (q, a)).
  - cbn [map]. rewrite raise_if_true, bind_raise.
    cbn [fst snd raise app]. rewrite try_except_error.
    cbn [is_HTTPException raise fst snd app List.length].
    now rewrite length_map.
Qed.

Lemma check_answers_valid (items : list (pystr * pyval)) :
  items <> [] ->
  (forall q a, In (q, a) items -> unstrippable a = false /\ empty_value a = false) ->
  check_answers env (VDict items)
  = top_level env $"check_answers" (evaluate_answers env items).
Proof.
  intros Hne Hv.
  unfold check_answers. f_equal.
  rewrite bind_ret, truthy_items by trivial.
  cbn [negb]. rewrite raise_if_false, bind_ret.
  rewrite empty_answers_ok by (intros q a Hin; now apply (Hv q a)).
  rewrite filter_empty by (intros [q a] Hin; now apply (Hv q a)).
  rewrite bind_value. cbn [map].
  rewrite raise_if_false, bind_ret. cbn [app].
  apply pair_eta.
Qed.

(** A true answer that is not a string makes the emptiness test raise,
    and the outermost handler answers 500. *)
Lemma check_answers_unstrippable (items : list (pystr * pyval)) :
  (exists q a, In (q, a) items /\ unstrippable a = true) ->
  exists q a, In (q, a) items /\ unstrippable a = true /\
    empty_answers items = ([], inl (no_strip a)) /\
    check_answers env (VDict items)
    = ([EvLog ERROR ($"Unexpected error in " ++ $"check_answers" ++ $": "
                     ++ exn_str env (no_strip a))],
       inl (HTTPException HTTP_500_INTERNAL_SERVER_ERROR
              (VStr ($"An unexpected error occurred: " ++ exn_str env (no_strip a))))).
Proof.
  intro H.
  assert (items <> []) as Hne by (destruct H as [q [a [Hin _]]]; intros ->; destruct Hin).
  destruct (empty_answers_raises _ H) as [q [a [Hin [Hu He]]]].
  exists q, a. split; trivial. split; trivial. split; trivial.
  unfold check_answers, top_level.
  rewrite bind_ret, truthy_items by trivial.
  cbn [negb]. rewrite raise_if_false, bind_ret.
  rewrite He, bind_error, try_except_error.
  reflexivity.
Qed.

End Answers.

(** ** The stages of POST /complete-evaluation *)

Lemma try_except_prefix {A : Type} (t : list event) (m : M A) (h : exn -> M A) :
  try_except (t ++ fst m, snd m) h
  = (t ++ fst (try_except m h), snd (try_except m h)).
Proof.
  destruct m as [t' [e|a]]; cbn [fst snd].
  - rewrite !try_except_error. cbn [fst snd]. now rewrite app_assoc.
  - reflexivity.
Qed.

Lemma top_level_http (env : collaborators) (name : pystr) (t : list event)
  (code : Z) (detail : pyval) :
  top_level env name (t, inl (HTTPException code detail))
  = (t, inl (HTTPException code detail)).
Proof.
  unfold top_level. rewrite try_except_error. cbn. now rewrite app_nil_r.
Qed.

Lemma top_level_value (env : collaborators) (name : pystr) (t : list event)
  (r : result) :
  top_level env name (t, inr r) = (t, inr r).
Proof. reflexivity. Qed.

Lemma check_range_spec (v lo hi : Z) (inner detail : pystr) :
  check_range v lo hi inner detail
  = if (lo <=? v) && (v <=? hi) then ret v
    else raise (HTTPException HTTP_400_BAD_REQUEST (VStr detail)).
Proof.
  unfold check_range, py_int. rewrite bind_ret.
  destruct ((lo <=? v) && (v <=? hi)); cbn [negb].
  - rewrite raise_if_false, bind_ret. reflexivity.
  - rewrite raise_if_true, bind_raise, try_except_raise. reflexivity.
Qed.

Lemma validate_inputs_valid (tech_stack : pystr) (difficulty question_count : Z)
  (answers : list (pystr * pystr)) :
  forallb PyStr.isspace tech_stack = false ->
  1 <= difficulty <= 5 ->
  1 <= question_count <= 20 ->
  answers <> [] ->
  validate_inputs tech_stack difficulty question_count answers
  = ([], inr (difficulty, question_count)).
Proof.
  intros Ht Hd Hq Ha. unfold validate_inputs.
  rewrite blank_whitespace, Ht.
  assert (PyStr.truthy tech_stack = true) as ->
    by (destruct tech_stack; [discriminate | reflexivity]).
  cbn [negb orb]. rewrite raise_if_false, bind_ret, !check_range_spec.
  assert ((1 <=? difficulty) && (difficulty <=? 5) = true) as ->
    by (apply andb_true_intro; split; apply Z.leb_le; lia).
  assert ((1 <=? question_count) && (question_count <=? 20) = true) as ->
    by (apply andb_true_intro; split; apply Z.leb_le; lia).
  rewrite !bind_ret.
  destruct answers; [congruence|].
  rewrite raise_if_false, bind_ret. reflexivity.
Qed.

Lemma validate_inputs_invalid (tech_stack : pystr) (difficulty question_count : Z)
  (answers : list (pystr * pystr)) :
  forallb PyStr.isspace tech_stack = true \/
  difficulty < 1 \/ 5 < difficulty \/
  question_count < 1 \/ 20 < question_count \/
  answers = [] ->
  exists detail,
    validate_inputs tech_stack difficulty question_count answers
    = ([], inl (HTTPException HTTP_400_BAD_REQUEST (VStr detail))).
Proof.
  intro H. unfold validate_inputs. rewrite blank_whitespace.
  destruct (forallb PyStr.isspace tech_stack) eqn:Ht.
  { rewrite orb_true_r, raise_if_true, bind_raise. eexists. reflexivity. }
  assert (PyStr.truthy tech_stack = true) as ->
    by (destruct tech_stack; [discriminate | reflexivity]).
  cbn [negb orb]. rewrite raise_if_false, bind_ret, !check_range_spec.
  destruct ((1 <=? difficulty) && (difficulty <=? 5)) eqn:Hd.
  2:{ rewrite bind_raise. eexists. reflexivity. }
  rewrite bind_ret.
  destruct ((1 <=? question_count) && (question_count <=? 20)) eqn:Hq.
  2:{ rewrite bind_raise. eexists. reflexivity. }
  rewrite bind_ret.
  destruct answers.
  { rewrite raise_if_true, bind_raise. eexists. reflexivity. }
  exfalso.
  apply andb_prop in Hd, Hq. destruct Hd as [Hd1 Hd2], Hq as [Hq1 Hq2].
  apply Z.leb_le in Hd1, Hd2, Hq1, Hq2.
  destruct H as [H|[H|[H|[H|[H|H]]]]]; try lia; discriminate.
Qed.

Section Complete.

Variable env : collaborators.

(** Once the text is extracted, the request continues with the validation
    of the inputs. *)
Lemma complete_evaluation_extracted (file : UploadFile) (tech_stack : pystr)
  (difficulty question_count : Z) (answers : list (pystr * pystr))
  (tr : list event) (text : pystr) :
  is_pdf_content_type (content_type file) = true ->
  extract_resume_text env (content file) = (tr, inr text) ->
  let rest :=
    top_level env $"complete_evaluation"
      (checked <- validate_inputs tech_stack difficulty question_count answers ;;
       perform_evaluation env text tech_stack (fst checked) (snd checked) answers) in
  complete_evaluation env file tech_stack difficulty question_count answers
  = (EvFileRead :: tr ++ fst rest, snd rest).
Proof.
  intros Hct He rest. unfold complete_evaluation.
  rewrite Hct. cbn [negb]. rewrite raise_if_false, bind_ret.
  unfold file_read. rewrite bind_call_inr, He, bind_value. cbn [fst snd].
  unfold top_level.
  change (EvFileRead :: tr ++ ?x) with ((EvFileRead :: tr) ++ x).
  rewrite try_except_prefix. reflexivity.
Qed.

(** An HTTP error raised by the extraction block ends the request. *)
Lemma complete_evaluation_unextracted (file : UploadFile) (tech_stack : pystr)
  (difficulty question_count : Z) (answers : list (pystr * pystr))
  (tr : list event) (code : Z) (detail : pyval) :
  is_pdf_content_type (content_type file) = true ->
  extract_resume_text env (content file) = (tr, inl (HTTPException code detail)) ->
  complete_evaluation env file tech_stack difficulty question_count answers
  = (EvFileRead :: tr, inl (HTTPException code detail)).
Proof.
  intros Hct He. unfold complete_evaluation.
  rewrite Hct. cbn [negb]. rewrite raise_if_false, bind_ret.
  unfold file_read. rewrite bind_call_inr, He, bind_error. cbn [fst snd].
  apply top_level_http.
Qed.

End Complete.

(** ** The stages of POST /questions *)

Lemma dict_get_has {A : Type} (k : pystr) (d : list (pystr * A)) (v : A) :
  dict_get k d = Some v -> dict_has k d = true.
Proof.
  unfold dict_has. induction d as [|[k' v'] r IH]; simpl; [discriminate|].
  destruct (PyStr.eqb k' k); simpl; auto.
Qed.

Lemma first_missing_none (kvs : list (pystr * pyval)) :
  (forall f, In f required_fields -> dict_has f kvs = true) ->
  first_missing required_fields kvs = None.
Proof.
  intro H. unfold first_missing.
  destruct (find _ required_fields) as [g|] eqn:E; trivial.
  apply find_some in E. destruct E as [Hin Hb].
  rewrite (H g Hin) in Hb. discriminate.
Qed.

Section Questions.

Variable env : collaborators.

Lemma langchain_questions_extracted (file : UploadFile) (data : option pystr)
  (json_data : pyval) (tr : list event) (text : pystr) :
  is_pdf_content_type (content_type file) = true ->
  parse_json_data env data = ([], inr json_data) ->
  extract_resume_text env (content file) = (tr, inr text) ->
  let rest :=
    top_level env $"langchain_questions"
      (generate_questions env
         (processed_data_of file (content file) json_data) json_data text) in
  langchain_questions env file data = (EvFileRead :: tr ++ fst rest, snd rest).
Proof.
  intros Hct Hp He rest. unfold langchain_questions.
  rewrite Hct. cbn [negb]. rewrite raise_if_false, bind_ret.
  unfold file_read. rewrite bind_call_inr, Hp, bind_value. cbn [fst snd app].
  rewrite He, bind_value. cbn [fst snd].
  unfold top_level.
  change (EvFileRead :: tr ++ ?x) with ((EvFileRead :: tr) ++ x).
  rewrite try_except_prefix. reflexivity.
Qed.

Lemma langchain_questions_unextracted (file : UploadFile) (data : option pystr)
  (json_data : pyval) (tr : list event) (code : Z) (detail : pyval) :
  is_pdf_content_type (content_type file) = true ->
  parse_json_data env data = ([], inr json_data) ->
  extract_resume_text env (content file) = (tr, inl (HTTPException code detail)) ->
  langchain_questions env file data = (EvFileRead :: tr, inl (HTTPException code detail)).
Proof.
  intros Hct Hp He. unfold langchain_questions.
  rewrite Hct. cbn [negb]. rewrite raise_if_false, bind_ret.
  unfold file_read. rewrite bind_call_inr, Hp, bind_value. cbn [fst snd app].
  rewrite He, bind_error. cbn [fst snd].
  apply top_level_http.
Qed.

Lemma generate_questions_ok (processed_data : pyval) (kvs : list (pystr * pyval))
  (text prompt : pystr) (tech_stack difficulty question_count : pyval)
  (questions : list pystr) :
  dict_get $"techStack" kvs = Some tech_stack ->
  dict_get $"difficultyLevel" kvs = Some difficulty ->
  dict_get $"questionCount" kvs = Some question_count ->
  prepare_prompt env text tech_stack difficulty question_count = inr prompt ->
  get_questions env prompt = inr questions ->
  outcome (generate_questions env processed_data (VDict kvs) text)
  = inr match questions with
        | [] => no_questions_response
        | _ :: _ =>
            Return (VDict [($"metadata", processed_data);
                           ($"questions", VList (map VStr questions));
                           ($"count", VInt (Z.of_nat (List.length questions)))])
        end.
Proof.
  intros Ht Hd Hq Hp Hg. unfold generate_questions, py_getitem.
  rewrite Ht, Hd, Hq, !bind_lift_inr, Hp, bind_call_inr, bind_log.
  cbn [fst snd]. rewrite Hg, bind_call_inr.
  destruct questions as [|q r].
  - rewrite bind_log. reflexivity.
  - reflexivity.
Qed.

End Questions.

Section Evaluation.

Variable env : collaborators.

Lemma perform_evaluation_error (text tech_stack : pystr)
  (difficulty question_count : Z) (answers : list (pystr * pystr))
  (res : list (pystr * pyval)) (message : pyval) :
  evaluate_candidate env text tech_stack difficulty question_count answers
  = inr (VDict res) ->
  dict_get $"status" res = Some (VStr $"error") ->
  dict_get $"error" res = Some message ->
  perform_evaluation env text tech_stack difficulty question_count answers
  = ([EvEvaluateCandidate text tech_stack difficulty question_count answers],
     inl (HTTPException HTTP_500_INTERNAL_SERVER_ERROR message)).
Proof.
  intros He Hs Hm. unfold perform_evaluation.
  rewrite He, bind_call_inr. unfold py_getitem.
  rewrite Hs, bind_lift_inr. unfold py_eq_str. rewrite eqb_refl.
  rewrite Hm, bind_lift_inr, bind_raise. reflexivity.
Qed.

Lemma perform_evaluation_success (text tech_stack : pystr)
  (difficulty question_count : Z) (answers : list (pystr * pystr))
  (res : list (pystr * pyval)) :
  evaluate_candidate env text tech_stack difficulty question_count answers
  = inr (VDict res) ->
  dict_get $"status" res = Some (VStr $"success") ->
  perform_evaluation env text tech_stack difficulty question_count answers
  = ([EvEvaluateCandidate text tech_stack difficulty question_count answers],
     inr (Return (VDict res))).
Proof.
  intros He Hs. unfold perform_evaluation.
  rewrite He, bind_call_inr. unfold py_getitem.
  rewrite Hs, bind_lift_inr.
  replace (py_eq_str (VStr $"success") $"error") with false by reflexivity.
  rewrite !bind_ret. reflexivity.
Qed.

End Evaluation.

(** ** Properties of the handlers *)

(** C5: a file whose content type is not one of the PDF types is answered
    415 by POST /questions and by POST /complete-evaluation, and nothing is
    called: the trace of the request is empty. *)
Theorem non_pdf_is_answered_415 (env : collaborators) (file : UploadFile)
  (data : option pystr) (tech_stack : pystr) (difficulty question_count : Z)
  (answers : list (pystr * pystr)) :
  (forall c, content_type file = Some c -> ~ In c pdf_content_types) ->
  langchain_questions env file data = ([], inl not_a_pdf) /\
  complete_evaluation env file tech_stack difficulty question_count answers
  = ([], inl not_a_pdf).
Proof.
  intro H. apply not_pdf_content_type in H.
  unfold langchain_questions, complete_evaluation.
  rewrite H. cbn [negb]. rewrite raise_if_true, !bind_raise.
  split; apply top_level_http.
Qed.

Lemma non_pdf_is_answered_415_witness :
  langchain_questions sample_env (text_file [37%N]) (Some full_payload)
  = ([], inl not_a_pdf) /\
  complete_evaluation sample_env (text_file [37%N]) $"Python" 3 5 sample_answers
  = ([], inl not_a_pdf).
Proof.
  apply non_pdf_is_answered_415.
  intros c Hc. injection Hc as <-.
  intros [H | [H | []]]; discriminate H.
Defined.

(** C2: when the text extracted from a PDF is empty or made of whitespace
    only, the 422 raised by the extraction block is caught by the block's own
    [except Exception], and both POST /questions and POST /complete-evaluation
    answer 500 instead of 422. *)
Theorem blank_pdf_is_answered_500 (env : collaborators) (file : UploadFile)
  (s : pystr) (kvs : list (pystr * pyval)) (tech_stack : pystr)
  (difficulty question_count : Z) (answers : list (pystr * pystr))
  (texts : list pystr) :
  is_pdf_content_type (content_type file) = true ->
  PyStr.truthy s = true ->
  json_loads env s = inr (VDict kvs) ->
  (forall f, In f required_fields -> dict_has f kvs = true) ->
  fitz_open env (content file) = inr (map inr texts) ->
  forallb PyStr.isspace (concat texts) = true ->
  let failed :=
    HTTPException HTTP_500_INTERNAL_SERVER_ERROR
      (VStr ($"Failed to process PDF: " ++ exn_str env unextractable)) in
  outcome (langchain_questions env file (Some s)) = inl failed /\
  outcome (complete_evaluation env file tech_stack difficulty question_count answers)
  = inl failed.
Proof.
  intros Hct Hs Hl Hk Ho Hb failed.
  rewrite <- blank_whitespace in Hb.
  pose proof (extract_text_blank env _ _ Ho Hb) as He.
  assert (kvs <> []) as Hne.
  { intros ->. specialize (Hk $"techStack" (or_introl eq_refl)). discriminate. }
  pose proof (parse_json_data_object env s Hs Hl Hne) as Hp.
  rewrite (first_missing_none _ Hk) in Hp.
  split.
  - now rewrite (langchain_questions_unextracted env _ _ Hct Hp He).
  - now rewrite (complete_evaluation_unextracted env _ _ _ _ _ Hct He).
Qed.

Lemma blank_pdf_is_answered_500_witness :
  status_of (outcome (langchain_questions scanned_env (pdf_file [37%N])
                        (Some full_payload)))
  = Some 500 /\
  status_of (outcome (complete_evaluation scanned_env (pdf_file [37%N])
                        $"Python" 3 5 sample_answers))
  = Some 500.
Proof.
  destruct (@blank_pdf_is_answered_500 scanned_env (pdf_file [37%N]) full_payload
              [($"techStack", VStr $"Python"); ($"difficultyLevel", VInt 3);
               ($"questionCount", VInt 5)]
              $"Python" 3 5 sample_answers scanned_pages) as [Hq Hc].
  - reflexivity.
  - reflexivity.
  - reflexivity.
  - intros f [<- | [<- | [<- | []]]]; reflexivity.
  - reflexivity.
  - reflexivity.
  - rewrite Hq, Hc. split; reflexivity.
Defined.

(** C4, as the code has it: with a PDF content type, a payload that parses
    to a non-empty JSON object without one of the keys [techStack],
    [difficultyLevel], [questionCount] is answered 400, the detail names the
    first missing key in that order, and only the file was read; a payload
    that parses to the empty object is answered 400 with the detail "Missing
    required parameters in JSON data", which names no key. *)
Theorem missing_key_is_named (env : collaborators) (file : UploadFile)
  (s : pystr) (kvs : list (pystr * pyval)) (f : pystr) :
  is_pdf_content_type (content_type file) = true ->
  PyStr.truthy s = true ->
  json_loads env s = inr (VDict kvs) ->
  (kvs <> [] ->
   In f required_fields ->
   dict_has f kvs = false ->
   exists g,
     first_missing required_fields kvs = Some g /\
     In g required_fields /\ dict_has g kvs = false /\
     langchain_questions env file (Some s)
     = ([EvFileRead],
        inl (HTTPException HTTP_400_BAD_REQUEST
               (VStr ($"Missing required field: " ++ g))))) /\
  (kvs = [] ->
   langchain_questions env file (Some s)
   = ([EvFileRead],
      inl (HTTPException HTTP_400_BAD_REQUEST
             (VStr $"Missing required parameters in JSON data")))).
Proof.
  intros Hct Hs Hl. split.
  - intros Hne Hin Hf.
    destruct (first_missing_some _ _ _ Hin Hf) as [g Hg].
    exists g. split; trivial.
    destruct (first_missing_is_missing _ _ Hg) as [Hing Hgf].
    split; trivial. split; trivial.
    apply questions_payload_rejected; trivial.
    rewrite (parse_json_data_object env s Hs Hl Hne), Hg. reflexivity.
  - intro Hk. subst kvs.
    apply questions_payload_rejected; trivial.
    apply (parse_json_data_falsy env s Hs Hl). reflexivity.
Qed.

Lemma missing_key_is_named_witness :
  (exists g,
     first_missing required_fields [($"techStack", VStr $"Python")] = Some g /\
     In g required_fields /\
     dict_has g [($"techStack", VStr $"Python")] = false /\
     langchain_questions sample_env (pdf_file [37%N]) (Some partial_payload)
     = ([EvFileRead],
        inl (HTTPException HTTP_400_BAD_REQUEST
               (VStr ($"Missing required field: " ++ g))))) /\
  langchain_questions sample_env (pdf_file [37%N]) (Some $"{}")
  = ([EvFileRead],
     inl (HTTPException HTTP_400_BAD_REQUEST
            (VStr $"Missing required parameters in JSON data"))).
Proof.
  split.
  - destruct (@missing_key_is_named sample_env (pdf_file [37%N]) partial_payload
                [($"techStack", VStr $"Python")] $"questionCount"
                eq_refl eq_refl eq_refl) as [Hnamed _].
    apply Hnamed.
    + discriminate.
    + right. right. left. reflexivity.
    + reflexivity.
  - destruct (@missing_key_is_named sample_env (pdf_file [37%N]) $"{}" []
                $"techStack" eq_refl eq_refl eq_refl) as [_ Hempty].
    apply Hempty. reflexivity.
Defined.

(** C4, as stated, fails: the empty JSON object lacks every required key and
    is answered 400 with the detail "Missing required parameters in JSON
    data", which names none of them. *)
Lemma missing_key_not_always_named : ~ missing_key_always_named.
Proof.
  intro H.
  destruct (H sample_env (pdf_file [37%N]) $"{}" []) as [g [detail [Hin [_ [Ho Hsub]]]]].
  - reflexivity.
  - reflexivity.
  - exists (PyStr.lit "techStack"). split; [now left | reflexivity].
  - vm_compute in Ho. injection Ho as <-.
    destruct Hin as [<- | [<- | [<- | []]]]; vm_compute in Hsub; discriminate Hsub.
Qed.

(** C3, as the code has it: when no answer of the map is a true value that
    is not a string, and at least one answer is empty (a false value, or a
    string of whitespace only), POST /check-answers answers 400, the detail
    gives the number of empty answers, and nothing is called: no prompt is
    built and the evaluation client is not reached. *)
Theorem empty_answers_are_counted (env : collaborators)
  (items : list (pystr * pyval)) :
  (forall q a, In (q, a) items -> truthy a = true -> is_str a = true) ->
  (exists q a, In (q, a) items /\ empty_value a = true) ->
  check_answers env (VDict items)
  = ([], inl (HTTPException HTTP_400_BAD_REQUEST
                (VStr ($"Empty answers provided for "
                       ++ PyStr.of_nat (count_empty items) ++ $" questions")))).
Proof.
  intros Hs He. apply check_answers_empty; trivial.
  intros q a Hin. unfold unstrippable.
  destruct (truthy a) eqn:T; trivial.
  now rewrite (Hs q a Hin T).
Qed.

Lemma empty_answers_are_counted_witness :
  check_answers sample_env
    (VDict [($"What is a closure?", VStr []);
            ($"What is a decorator?", VStr $"A wrapper");
            ($"What is a generator?", VStr $"  ")])
  = ([], inl (HTTPException HTTP_400_BAD_REQUEST
                (VStr $"Empty answers provided for 2 questions"))).
Proof.
  apply (@empty_answers_are_counted sample_env
           [($"What is a closure?", VStr []);
            ($"What is a decorator?", VStr $"A wrapper");
            ($"What is a generator?", VStr $"  ")]).
  - intros q a [H | [H | [H | []]]] _; injection H as _ <-; reflexivity.
  - exists (PyStr.lit "What is a closure?"), (VStr (@nil N)).
    split; [now left | reflexivity].
Defined.

(** C3, as stated, fails: a map with a blank answer and an answer that is a
    number is answered 500. *)
Lemma blank_answer_not_always_400 : ~ blank_answer_always_400.
Proof.
  intro H.
  specialize (H sample_env
                [($"What is a closure?", VStr []);
                 ($"What is a decorator?", VInt 7)]).
  assert (exists q s,
             In (q, VStr s) [($"What is a closure?", VStr []);
                             ($"What is a decorator?", VInt 7)]
             /\ forallb PyStr.isspace s = true) as Hex.
  { exists (PyStr.lit "What is a closure?"), (@nil N).
    split; [now left | reflexivity]. }
  apply H in Hex. vm_compute in Hex. discriminate Hex.
Qed.

(** C10: when an answer of the map is a true value that is not a string,
    the emptiness test calls [strip] on such a value and raises, the
    outermost handler of POST /check-answers answers 500 (not 400), and the
    evaluation client is not reached. *)
Theorem non_string_answer_is_answered_500 (env : collaborators)
  (items : list (pystr * pyval)) :
  (exists q a, In (q, a) items /\ truthy a = true /\ is_str a = false) ->
  exists q a,
    In (q, a) items /\ truthy a = true /\ is_str a = false /\
    outcome (empty_answers items) = inl (no_strip a) /\
    outcome (check_answers env (VDict items))
    = inl (HTTPException HTTP_500_INTERNAL_SERVER_ERROR
             (VStr ($"An unexpected error occurred: '" ++ type_name a
                    ++ $"' object has no attribute 'strip'"))) /\
    evaluation_calls (trace_of (check_answers env (VDict items))) = [].
Proof.
  intros [q0 [a0 [Hin0 [Ht0 Hs0]]]].
  assert (exists q a, In (q, a) items /\ unstrippable a = true) as Hu.
  { exists q0, a0. split; trivial. unfold unstrippable. now rewrite Ht0, Hs0. }
  destruct (check_answers_unstrippable env _ Hu) as [q [a [Hin [Hua [He Hc]]]]].
  unfold unstrippable in Hua. apply andb_prop in Hua. destruct Hua as [Ht Hs].
  apply negb_true_iff in Hs.
  exists q, a. rewrite He, Hc. repeat (split; trivial).
Qed.

Lemma non_string_answer_is_answered_500_witness :
  exists q a,
    In (q, a) [($"What is a closure?", VStr []);
               ($"What is a decorator?", VInt 7)] /\
    truthy a = true /\ is_str a = false /\
    outcome (empty_answers [($"What is a closure?", VStr []);
                            ($"What is a decorator?", VInt 7)])
    = inl (no_strip a) /\
    outcome (check_answers sample_env
               (VDict [($"What is a closure?", VStr []);
                       ($"What is a decorator?", VInt 7)]))
    = inl (HTTPException HTTP_500_INTERNAL_SERVER_ERROR
             (VStr ($"An unexpected error occurred: '" ++ type_name a
                    ++ $"' object has no attribute 'strip'"))) /\
    evaluation_calls
      (trace_of (check_answers sample_env
                   (VDict [($"What is a closure?", VStr []);
                           ($"What is a decorator?", VInt 7)]))) = [].
Proof.
  apply non_string_answer_is_answered_500.
  exists (PyStr.lit "What is a decorator?"), (VInt 7).
  split; [right; now left | split; reflexivity].
Defined.

(** C6: when the answer map is not empty, every answer is a string that is
    not blank, the prompt is built, the evaluation client returns the score
    [score] and the feedback function returns [feedback] for it, POST
    /check-answers returns the object with [score], that feedback, the number
    of question-answer pairs and the status "success". *)
Theorem check_answers_returns_evaluation (env : collaborators)
  (items : list (pystr * pyval)) (prompt : pystr) (score : pyval)
  (feedback : pystr) :
  items <> [] ->
  (forall q a, In (q, a) items ->
     exists s, a = VStr s /\ forallb PyStr.isspace s = false) ->
  prepare_prompt_for_answercheck env items = inr prompt ->
  get_evaluation env prompt = inr score ->
  get_feedback_for_score env score = inr feedback ->
  check_answers env (VDict items)
  = ([EvPreparePromptForAnswercheck items; EvGetEvaluation prompt;
      EvGetFeedbackForScore score],
     inr (Return (VDict [($"score", score);
                         ($"feedback", VStr feedback);
                         ($"evaluated_answers", VInt (Z.of_nat (List.length items)));
                         ($"status", VStr $"success")]))).
Proof.
  intros Hne Hv Hp Hs Hf.
  rewrite check_answers_valid; trivial.
  - unfold evaluate_answers.
    rewrite Hp, bind_call_inr, Hs, bind_call_inr, Hf, bind_call_inr.
    reflexivity.
  - intros q a Hin. destruct (Hv q a Hin) as [s [-> Hb]].
    unfold unstrippable, empty_value. cbn [is_str negb truthy].
    rewrite andb_false_r, Hb, orb_false_r.
    destruct s; [discriminate Hb | split; reflexivity].
Qed.

Lemma check_answers_returns_evaluation_witness :
  check_answers sample_env
    (VDict [($"What is a closure?", VStr $"A function with its environment")])
  = ([EvPreparePromptForAnswercheck
        [($"What is a closure?", VStr $"A function with its environment")];
      EvGetEvaluation $"Score these answers";
      EvGetFeedbackForScore (VInt 80)],
     inr (Return (VDict [($"score", VInt 80);
                         ($"feedback", VStr $"Good");
                         ($"evaluated_answers", VInt 1);
                         ($"status", VStr $"success")]))).
Proof.
  apply (@check_answers_returns_evaluation sample_env
           [($"What is a closure?", VStr $"A function with its environment")]
           $"Score these answers" (VInt 80) $"Good").
  - discriminate.
  - intros q a [H | []]. injection H as _ <-.
    exists (PyStr.lit "A function with its environment").
    split; reflexivity.
  - reflexivity.
  - reflexivity.
  - reflexivity.
Defined.

(** C7: a request to POST /questions that reaches the generation of the
    questions (PDF content type, an object with the three keys, a text that
    is not blank, a prompt) returns, when the evaluation client returns no
    question, the response 204 with a message, which is not a raised error,
    and otherwise the object with the metadata, the questions and their
    number. *)
Theorem questions_outcome (env : collaborators) (file : UploadFile)
  (s : pystr) (kvs : list (pystr * pyval))
  (tech_stack difficulty question_count : pyval)
  (texts : list pystr) (prompt : pystr) (questions : list pystr) :
  is_pdf_content_type (content_type file) = true ->
  PyStr.truthy s = true ->
  json_loads env s = inr (VDict kvs) ->
  dict_get $"techStack" kvs = Some tech_stack ->
  dict_get $"difficultyLevel" kvs = Some difficulty ->
  dict_get $"questionCount" kvs = Some question_count ->
  fitz_open env (content file) = inr (map inr texts) ->
  forallb PyStr.isspace (concat texts) = false ->
  prepare_prompt env (concat texts) tech_stack difficulty question_count
  = inr prompt ->
  get_questions env prompt = inr questions ->
  let m := langchain_questions env file (Some s) in
  (questions = [] ->
   outcome m
   = inr (JSONResponse HTTP_204_NO_CONTENT
            (VDict [($"message",
                     VStr $"No questions could be generated. Try adjusting parameters.")]))) /\
  (questions <> [] ->
   outcome m
   = inr (Return
            (VDict [($"metadata",
                     VDict [($"file_size", VInt (Z.of_nat (List.length (content file))));
                            ($"file_name", opt_str (filename file));
                            ($"json_data", VDict kvs)]);
                    ($"questions", VList (map VStr questions));
                    ($"count", VInt (Z.of_nat (List.length questions)))]))) /\
  List.length (evaluation_calls (trace_of m)) = 1%nat.
Proof.
  intros Hct Hs Hl Ht Hd Hq Ho Hb Hp Hg m.
  rewrite <- blank_whitespace in Hb.
  pose proof (extract_text_ok env _ _ Ho Hb) as He.
  assert (kvs <> []) as Hne by (intros ->; discriminate Ht).
  pose proof (parse_json_data_object env s Hs Hl Hne) as Hj.
  rewrite first_missing_none in Hj.
  2:{ intros f [<- | [<- | [<- | []]]]; eapply dict_get_has; eassumption. }
  subst m. rewrite (langchain_questions_extracted env _ _ Hct Hj He).
  cbv zeta. unfold outcome, trace_of. cbn [fst snd].
  pose proof (generate_questions_ok env
                (processed_data_of file (content file) (VDict kvs))
                kvs (concat texts) Ht Hd Hq Hp Hg) as Hgen.
  destruct (generate_questions env _ (VDict kvs) (concat texts)) as [tg rg] eqn:Eg.
  unfold outcome in Hgen. cbn [snd] in Hgen. subst rg.
  rewrite top_level_value. cbn [fst snd].
  split; [| split].
  - intros ->. reflexivity.
  - intro Hq'. destruct questions; [congruence | reflexivity].
  - revert Eg. unfold generate_questions, py_getitem.
    rewrite Ht, Hd, Hq, !bind_lift_inr, Hp, bind_call_inr, bind_log.
    cbn [fst snd]. rewrite Hg, bind_call_inr.
    unfold evaluation_calls, page_events.
    destruct questions as [|q r].
    + rewrite bind_log. intro Eg. injection Eg as <-.
      cbn [filter is_extractor_call is_evaluation_call].
      rewrite filter_app. cbn.
      rewrite filter_empty, app_nil_l; [reflexivity|].
      intros x Hx. apply in_map_iff in Hx. destruct Hx as [n [<- _]]. reflexivity.
    + intro Eg. injection Eg as <-.
      cbn [filter is_extractor_call is_evaluation_call].
      rewrite filter_app. cbn.
      rewrite filter_empty, app_nil_l; [reflexivity|].
      intros x Hx. apply in_map_iff in Hx. destruct Hx as [n [<- _]]. reflexivity.
Qed.

Lemma questions_outcome_witness :
  outcome (langchain_questions failing_env (pdf_file [37%N]) (Some full_payload))
  = inr no_questions_response /\
  outcome (langchain_questions sample_env (pdf_file [37%N]) (Some full_payload))
  = inr (Return
           (VDict [($"metadata",
                    VDict [($"file_size", VInt 1);
                           ($"file_name", VStr $"resume.pdf");
                           ($"json_data",
                            VDict [($"techStack", VStr $"Python");
                                   ($"difficultyLevel", VInt 3);
                                   ($"questionCount", VInt 5)])]);
                   ($"questions",
                    VList [VStr $"What is a closure?"; VStr $"What is a decorator?"]);
                   ($"count", VInt 2)])).
Proof.
  split.
  - destruct (@questions_outcome failing_env (pdf_file [37%N]) full_payload
                [($"techStack", VStr $"Python"); ($"difficultyLevel", VInt 3);
                 ($"questionCount", VInt 5)]
                (VStr $"Python") (VInt 3) (VInt 5) resume_pages
                ($"Questions for: " ++ concat resume_pages) [])
      as [Hnone _];
      [reflexivity | reflexivity | reflexivity | reflexivity | reflexivity
      | reflexivity | reflexivity | reflexivity | reflexivity | reflexivity | ].
    apply Hnone. reflexivity.
  - destruct (@questions_outcome sample_env (pdf_file [37%N]) full_payload
                [($"techStack", VStr $"Python"); ($"difficultyLevel", VInt 3);
                 ($"questionCount", VInt 5)]
                (VStr $"Python") (VInt 3) (VInt 5) resume_pages
                ($"Questions for: " ++ concat resume_pages)
                [$"What is a closure?"; $"What is a decorator?"])
      as [_ [Hsome _]];
      [reflexivity | reflexivity | reflexivity | reflexivity | reflexivity
      | reflexivity | reflexivity | reflexivity | reflexivity | reflexivity | ].
    apply Hsome. discriminate.
Defined.

(** C8: when POST /complete-evaluation reaches the combined procedure and
    that procedure returns an object, a status "error" ends the request with
    a 500 whose detail is the value under the key "error", and a status
    "success" returns the object as it is. *)
Theorem evaluation_status_is_translated (env : collaborators) (file : UploadFile)
  (tech_stack : pystr) (difficulty question_count : Z)
  (answers : list (pystr * pystr)) (texts : list pystr)
  (res : list (pystr * pyval)) :
  is_pdf_content_type (content_type file) = true ->
  fitz_open env (content file) = inr (map inr texts) ->
  forallb PyStr.isspace (concat texts) = false ->
  forallb PyStr.isspace tech_stack = false ->
  1 <= difficulty <= 5 ->
  1 <= question_count <= 20 ->
  answers <> [] ->
  evaluate_candidate env (concat texts) tech_stack difficulty question_count answers
  = inr (VDict res) ->
  let m := complete_evaluation env file tech_stack difficulty question_count answers in
  (forall message,
     dict_get $"status" res = Some (VStr $"error") ->
     dict_get $"error" res = Some message ->
     outcome m = inl (HTTPException HTTP_500_INTERNAL_SERVER_ERROR message)) /\
  (dict_get $"status" res = Some (VStr $"success") ->
   outcome m = inr (Return (VDict res))).
Proof.
  intros Hct Ho Hb Hts Hd Hq Ha Hev m.
  rewrite <- blank_whitespace in Hb.
  pose proof (extract_text_ok env _ _ Ho Hb) as He.
  subst m.
  rewrite (complete_evaluation_extracted env _ tech_stack difficulty
             question_count answers Hct He).
  cbv zeta. unfold outcome. cbn [snd].
  rewrite (validate_inputs_valid _ Hts Hd Hq Ha), bind_value. cbn [fst snd app].
  rewrite pair_eta.
  split.
  - intros message Hs Hm.
    rewrite (perform_evaluation_error env _ _ _ _ _ Hev Hs Hm), top_level_http.
    reflexivity.
  - intro Hs.
    rewrite (perform_evaluation_success env _ _ _ _ _ Hev Hs), top_level_value.
    reflexivity.
Qed.

Lemma evaluation_status_is_translated_witness :
  outcome (complete_evaluation failing_env (pdf_file [37%N]) $"Python" 3 5
             sample_answers)
  = inl (HTTPException HTTP_500_INTERNAL_SERVER_ERROR (VStr $"backend unavailable"))
  /\
  outcome (complete_evaluation sample_env (pdf_file [37%N]) $"Python" 3 5
             sample_answers)
  = inr (Return success_result).
Proof.
  split.
  - destruct (@evaluation_status_is_translated failing_env (pdf_file [37%N])
                $"Python" 3 5 sample_answers resume_pages
                [($"status", VStr $"error"); ($"error", VStr $"backend unavailable")])
      as [Herr _];
      [reflexivity | reflexivity | reflexivity | reflexivity | lia | lia
      | discriminate | reflexivity | ].
    apply Herr; reflexivity.
  - destruct (@evaluation_status_is_translated sample_env (pdf_file [37%N])
                $"Python" 3 5 sample_answers resume_pages
                [($"status", VStr $"success"); ($"score", VInt 80)])
      as [_ Hok];
      [reflexivity | reflexivity | reflexivity | reflexivity | lia | lia
      | discriminate | reflexivity | ].
    apply Hok; reflexivity.
Defined.

(** C1, as the code has it.  In POST /questions, with a PDF content type, a
    payload that is absent, is the empty string, makes [json.loads] raise
    [JSONDecodeError], decodes to a false value, or decodes to an object
    without one of the required keys is answered 400 before the extractor
    or the evaluation client is called.  In POST /check-answers a body that
    is not a mapping, a mapping without pairs, and a mapping in which no
    answer is a true value that is not a string and at least one answer is
    empty (a false value or a string of whitespace only) is answered 400
    before the extractor or the evaluation client is called.  In POST
    /complete-evaluation the text is extracted first: with a PDF content
    type, when the document opens, every page is read and the text is not
    blank, a tech stack that is empty or blank, a difficulty outside 1..5, a
    question count outside 1..20 or an empty answer map is answered 400 after
    the calls to the extractor and before any call to the evaluation
    client. *)
Theorem validation_failures_are_answered_400 (env : collaborators) :
  (forall file data,
     is_pdf_content_type (content_type file) = true ->
     rejected_payload env data ->
     refused_before_calls (langchain_questions env file data)) /\
  (forall json_data,
     rejected_answers json_data ->
     refused_before_calls (check_answers env json_data)) /\
  (forall file tech_stack difficulty question_count answers texts,
     is_pdf_content_type (content_type file) = true ->
     fitz_open env (content file) = inr (map inr texts) ->
     forallb PyStr.isspace (concat texts) = false ->
     invalid_inputs tech_stack difficulty question_count answers ->
     refused_after_extraction
       (EvFitzOpen (content file) :: page_events 0 (List.length texts))
       (complete_evaluation env file tech_stack difficulty question_count answers)).
Proof.
  split; [| split].
  - intros file data Hct Hr.
    assert (exists detail,
               parse_json_data env data
               = ([], inl (HTTPException HTTP_400_BAD_REQUEST detail))) as [d Hp].
    { destruct Hr as [| | s m Hs Hl | s v Hs Hl Hv | s kvs f Hs Hl Hin Hf].
      - eexists. apply parse_json_data_absent. now left.
      - eexists. apply parse_json_data_absent. now right.
      - eexists. eapply parse_json_data_undecodable; eassumption.
      - eexists. eapply parse_json_data_falsy; eassumption.
      - destruct kvs as [|kv kvs'].
        + eexists. eapply parse_json_data_falsy; [eassumption | eassumption | reflexivity].
        + destruct (first_missing_some _ _ _ Hin Hf) as [g Hg].
          eexists. rewrite (parse_json_data_object env s Hs Hl) by discriminate.
          rewrite Hg. reflexivity. }
    rewrite (questions_payload_rejected env _ _ Hct Hp).
    split; [| split]; try reflexivity. exists d. reflexivity.
  - intros json_data Hr.
    destruct Hr as [v Hv | | items q a Hs Hin He].
    + destruct v; try discriminate Hv;
        (split; [| split]; try reflexivity; eexists; reflexivity).
    + split; [| split]; try reflexivity. eexists. reflexivity.
    + rewrite (check_answers_empty env items Hs) by eauto.
      split; [| split]; try reflexivity. eexists. reflexivity.
  - intros file tech_stack difficulty question_count answers texts Hct Ho Hb Hi.
    rewrite <- blank_whitespace in Hb.
    pose proof (extract_text_ok env _ _ Ho Hb) as He.
    rewrite (complete_evaluation_extracted env _ tech_stack difficulty
               question_count answers Hct He).
    cbv zeta.
    destruct (@validate_inputs_invalid _ _ _ _ Hi) as [detail Hv].
    rewrite Hv, bind_error, top_level_http. cbn [fst snd].
    rewrite app_nil_r.
    assert (forall n k, filter is_extractor_call (page_events n k) = page_events n k) as Fe.
    { intros n k. unfold page_events. apply forallb_filter_id.
      apply forallb_forall. intros x Hx. apply in_map_iff in Hx.
      destruct Hx as [i [<- _]]. reflexivity. }
    assert (forall n k, filter is_evaluation_call (page_events n k) = []) as Fv.
    { intros n k. apply filter_empty. intros x Hx. apply in_map_iff in Hx.
      destruct Hx as [i [<- _]]. reflexivity. }
    split; [| split].
    + exists (VStr detail). reflexivity.
    + unfold extractor_calls, trace_of. cbn [fst filter is_extractor_call].
      now rewrite Fe.
    + unfold evaluation_calls, trace_of. cbn [fst filter is_evaluation_call].
      apply Fv.
Qed.

Lemma validation_failures_are_answered_400_witness :
  refused_before_calls
    (langchain_questions sample_env (pdf_file [37%N]) (Some partial_payload)) /\
  refused_before_calls (check_answers sample_env (VDict [])) /\
  refused_after_extraction
    (EvFitzOpen [37%N] :: page_events 0 2)
    (complete_evaluation sample_env (pdf_file [37%N]) $"Python" 9 5 sample_answers).
Proof.
  destruct (validation_failures_are_answered_400 sample_env) as [Hq [Ha Hc]].
  split; [| split].
  - apply Hq; [reflexivity |].
    apply payload_missing_key
      with (kvs := [($"techStack", VStr $"Python")]) (f := $"questionCount").
    + reflexivity.
    + reflexivity.
    + right. right. left. reflexivity.
    + reflexivity.
  - apply Ha. apply answers_no_pairs.
  - apply (Hc (pdf_file [37%N]) $"Python" 9 5 sample_answers resume_pages).
    + reflexivity.
    + reflexivity.
    + reflexivity.
    + right. right. left. lia.
Defined.

(** C1, as stated, fails: in POST /complete-evaluation a difficulty of 9 is
    answered 400 only after the extractor was called. *)
Lemma range_check_follows_extraction : ~ range_check_precedes_extraction.
Proof.
  intro H.
  destruct (H sample_env (pdf_file [37%N]) $"Python" 9 5 sample_answers)
    as [_ [Hex _]].
  - right. left. lia.
  - vm_compute in Hex. discriminate Hex.
Qed.

(** ** Traces and outcomes of composed computations *)

Lemma bind_outcome {A B : Type} (m : M A) (f : A -> M B) :
  outcome (bind m f)
  = match outcome m with
    | inr a => outcome (f a)
    | inl e => inl e
    end.
Proof.
  destruct m as [t [e|a]]; unfold outcome; cbn [snd]; trivial.
  rewrite bind_value. reflexivity.
Qed.

Lemma bind_trace {A B : Type} (m : M A) (f : A -> M B) :
  trace_of (bind m f)
  = trace_of m ++ match outcome m with
                  | inr a => trace_of (f a)
                  | inl _ => []
                  end.
Proof.
  destruct m as [t [e|a]]; unfold outcome, trace_of; cbn [fst snd].
  - now rewrite app_nil_r.
  - rewrite bind_value. reflexivity.
Qed.

Lemma try_except_outcome {A : Type} (m : M A) (h : exn -> M A) :
  outcome (try_except m h)
  = match outcome m with
    | inr a => inr a
    | inl e => outcome (h e)
    end.
Proof.
  destruct m as [t [e|a]]; unfold outcome; cbn [snd]; trivial.
  rewrite try_except_error. reflexivity.
Qed.

Lemma try_except_trace {A : Type} (m : M A) (h : exn -> M A) :
  trace_of (try_except m h)
  = trace_of m ++ match outcome m with
                  | inr _ => []
                  | inl e => trace_of (h e)
                  end.
Proof.
  destruct m as [t [e|a]]; unfold outcome, trace_of; cbn [fst snd].
  - rewrite try_except_error. reflexivity.
  - now rewrite app_nil_r.
Qed.

Lemma top_level_outcome (env : collaborators) (name : pystr) (body : M result) :
  outcome (top_level env name body)
  = match outcome body with
    | inr r => inr r
    | inl (HTTPException code detail) => inl (HTTPException code detail)
    | inl (PyExc c m) =>
        inl (HTTPException HTTP_500_INTERNAL_SERVER_ERROR
               (VStr ($"An unexpected error occurred: " ++ m)))
    end.
Proof.
  unfold top_level. rewrite try_except_outcome.
  destruct (outcome body) as [[code detail | c m] | r]; reflexivity.
Qed.

Lemma top_level_trace (env : collaborators) (name : pystr) (body : M result) :
  trace_of (top_level env name body)
  = trace_of body
    ++ match outcome body with
       | inl (PyExc c m) =>
           [EvLog ERROR ($"Unexpected error in " ++ name ++ $": " ++ m)]
       | _ => []
       end.
Proof.
  unfold top_level. rewrite try_except_trace.
  destruct (outcome body) as [[code detail | c m] | r]; reflexivity.
Qed.

Lemma raise_if_outcome (c : bool) (e : exn) :
  outcome (raise_if c e) = if c then inl e else inr tt.
Proof. now destruct c. Qed.

Lemma raise_if_trace (c : bool) (e : exn) : trace_of (raise_if c e) = [].
Proof. now destruct c. Qed.

(** ** The extraction block, whatever PyMuPDF does *)

Section Extraction.

Variable env : collaborators.

(** The loop reads the pages in order and stops at the first page whose
    text cannot be read. *)
Lemma read_pages_failure (texts : list pystr) (e : exn)
  (rest : list (exn + pystr)) (n : nat) (acc : pystr) :
  read_pages (map inr texts ++ inl e :: rest) n acc
  = (page_events n (S (List.length texts)), inl e).
Proof.
  revert n acc. induction texts as [|t r IH]; intros n acc.
  - reflexivity.
  - cbn [map app read_pages]. rewrite bind_call_inr, IH.
    reflexivity.
Qed.

Lemma read_pages_events (pages : list (exn + pystr)) (n : nat) (acc : pystr) :
  forallb is_extractor_call (trace_of (read_pages pages n acc)) = true.
Proof.
  revert n acc. induction pages as [|p r IH]; intros n acc; trivial.
  cbn [read_pages]. rewrite bind_trace, forallb_app.
  destruct p as [e|t]; cbn; auto.
Qed.

Lemma extractor_calls_are_extraction_events (tr : list event) :
  forallb is_extractor_call tr = true -> forallb extraction_event tr = true.
Proof.
  intro H. rewrite forallb_forall in *. intros x Hx.
  unfold extraction_event. now rewrite (H x Hx).
Qed.

(** The block returns a text that is not blank, or raises a 500; it calls
    only PyMuPDF and the logger. *)
Lemma extract_resume_text_cases (pdf_data : list N) :
  forallb extraction_event (trace_of (extract_resume_text env pdf_data)) = true /\
  ((exists text,
      outcome (extract_resume_text env pdf_data) = inr text /\
      forallb PyStr.isspace text = false) \/
   (exists m, outcome (extract_resume_text env pdf_data) = inl (extraction_failed m))).
Proof.
  unfold extract_resume_text.
  rewrite try_except_trace, try_except_outcome.
  destruct (fitz_open env pdf_data) as [e | pages] eqn:Ho.
  - rewrite bind_call_inl. cbn [outcome trace_of fst snd].
    rewrite bind_log. cbn. split; trivial. right. eexists. reflexivity.
  - pose proof (read_pages_events pages 0 []) as Hev.
    apply extractor_calls_are_extraction_events in Hev.
    rewrite bind_call_inr.
    destruct (read_pages pages 0 []) as [tr [e | text]] eqn:Hr;
      unfold trace_of in Hev; cbn [fst] in Hev.
    + rewrite bind_error. cbn [outcome trace_of fst snd].
      rewrite bind_log. cbn [fst snd http_error raise app].
      split.
      * cbn [forallb]. rewrite forallb_app, Hev. reflexivity.
      * right. eexists. reflexivity.
    + rewrite bind_value.
      destruct (PyStr.blank text) eqn:Hb.
      * rewrite raise_if_true, bind_raise. cbn [outcome trace_of fst snd raise].
        rewrite bind_log. cbn [fst snd http_error raise app].
        split.
        -- cbn [forallb]. rewrite !forallb_app, Hev. reflexivity.
        -- right. eexists. reflexivity.
      * rewrite raise_if_false, bind_ret. cbn [outcome trace_of fst snd ret].
        split.
        -- rewrite !app_nil_r. cbn [forallb]. rewrite Hev. reflexivity.
        -- left. exists text. split; trivial.
           now rewrite <- blank_whitespace.
Qed.

End Extraction.

(** ** POST /complete-evaluation, whatever the collaborators do *)

Section CompleteAny.
Variable env : collaborators.

Lemma perform_evaluation_trace (text tech_stack : pystr)
  (difficulty question_count : Z) (answers : list (pystr * pystr)) :
  trace_of (perform_evaluation env text tech_stack difficulty question_count answers)
  = [EvEvaluateCandidate text tech_stack difficulty question_count answers].
Proof.
  unfold perform_evaluation.
  destruct (evaluate_candidate env text tech_stack difficulty question_count answers)
    as [e | res]; [reflexivity |].
  rewrite bind_call_inr. unfold trace_of. cbn [fst]. f_equal.
  destruct (py_getitem res $"status") as [e | st]; [reflexivity |].
  rewrite bind_lift_inr.
  destruct (py_eq_str st $"error"); [| reflexivity].
  destruct (py_getitem res $"error"); reflexivity.
Qed.

Lemma validate_inputs_cases (tech_stack : pystr) (difficulty question_count : Z)
  (answers : list (pystr * pystr)) :
  (exists detail,
     validate_inputs tech_stack difficulty question_count answers
     = ([], inl (HTTPException HTTP_400_BAD_REQUEST (VStr detail)))) \/
  (forallb PyStr.isspace tech_stack = false /\
   1 <= difficulty <= 5 /\ 1 <= question_count <= 20 /\ answers <> [] /\
   validate_inputs tech_stack difficulty question_count answers
   = ([], inr (difficulty, question_count))).
Proof.
  destruct (forallb PyStr.isspace tech_stack) eqn:Ht.
  { left. apply validate_inputs_invalid. now left. }
  destruct (Z_lt_dec difficulty 1).
  { left. apply validate_inputs_invalid. right. now left. }
  destruct (Z_lt_dec 5 difficulty).
  { left. apply validate_inputs_invalid. right. right. now left. }
  destruct (Z_lt_dec question_count 1).
  { left. apply validate_inputs_invalid. do 3 right. now left. }
  destruct (Z_lt_dec 20 question_count).
  { left. apply validate_inputs_invalid. do 4 right. now left. }
  destruct answers as [|a r] eqn:Ha.
  { left. apply validate_inputs_invalid. do 5 right. reflexivity. }
  right. repeat split; try lia; try discriminate.
  apply validate_inputs_valid; trivial; try lia; discriminate.
Qed.

Lemma extraction_events_validated (tr : list event) :
  forallb extraction_event tr = true -> Forall validated_call tr.
Proof.
  intro H. apply Forall_forall. intros x Hx.
  rewrite forallb_forall in H. specialize (H x Hx).
  destruct x; try exact I. discriminate H.
Qed.

(** X1: Whatever the collaborators do, [evaluate_candidate] is only ever
    called with a resume text that is not blank, a tech stack that is not
    blank, a difficulty in 1..5, a question count in 1..20 and an answer map
    that is not empty. *)
Theorem evaluate_candidate_gets_validated_inputs (file : UploadFile)
  (tech_stack : pystr) (difficulty question_count : Z)
  (answers : list (pystr * pystr)) :
  Forall validated_call
    (trace_of (complete_evaluation env file tech_stack difficulty question_count answers)).
Proof.
  unfold complete_evaluation. rewrite top_level_trace.
  apply Forall_app. split.
  2:{ destruct (outcome _) as [[? ? | ? ?] | ?]; repeat constructor. }
  rewrite bind_trace, raise_if_trace, raise_if_outcome. cbn [app].
  destruct (is_pdf_content_type (content_type file)); cbn [negb]; [| constructor].
  unfold file_read. rewrite bind_call_inr. unfold trace_of at 1. cbn [fst].
  constructor; [exact I |].
  destruct (extract_resume_text_cases env (content file)) as [Hev Hcases].
  destruct (extract_resume_text env (content file)) as [tr r].
  unfold trace_of in Hev. unfold outcome in Hcases. cbn [fst snd] in *.
  destruct Hcases as [[text [-> Hb]] | [m ->]].
  - rewrite bind_value. cbn [fst]. apply Forall_app. split.
    { now apply extraction_events_validated. }
    destruct (validate_inputs_cases tech_stack difficulty question_count answers)
      as [[detail Hv] | [Ht [Hd [Hq [Ha Hv]]]]]; rewrite Hv.
    + rewrite bind_error. constructor.
    + rewrite bind_value. cbn [fst snd app].
      fold (trace_of (perform_evaluation env text tech_stack difficulty question_count answers)).
      rewrite perform_evaluation_trace.
      constructor; [| constructor]. cbn. tauto.
  - rewrite bind_error. cbn [fst]. now apply extraction_events_validated.
Qed.
End CompleteAny.

(** ** POST /check-answers, whatever the collaborators do *)

Lemma answers_decide (p : pyval -> bool) (items : list (pystr * pyval)) :
  (exists q a, In (q, a) items /\ p a = true) \/
  (forall q a, In (q, a) items -> p a = false).
Proof.
  induction items as [|[q a] r IH].
  - right. intros q a [].
  - destruct (p a) eqn:Hp.
    + left. exists q, a. split; [now left | trivial].
    + destruct IH as [[q' [a' [Hin Hp']]] | Hall].
      * left. exists q', a'. split; [now right | trivial].
      * right. intros q' a' [Heq | Hin]; [now injection Heq as <- <- | eauto].
Qed.

Lemma answered_value (a : pyval) :
  unstrippable a = false -> empty_value a = false ->
  exists s, a = VStr s /\ forallb PyStr.isspace s = false.
Proof.
  unfold unstrippable, empty_value. intros Hu He.
  apply orb_false_elim in He. destruct He as [Ht Hs].
  apply negb_false_iff in Ht. rewrite Ht in Hu. cbn in Hu.
  destruct a; try discriminate Hu. eauto.
Qed.

Section AnswersAny.
Variable env : collaborators.

(** What POST /check-answers does on any body. *)
Lemma check_answers_cases (json_data : pyval) :
  (trace_of (check_answers env json_data) = [] /\
   exists detail,
     outcome (check_answers env json_data)
     = inl (HTTPException HTTP_400_BAD_REQUEST detail)) \/
  (exists m,
     trace_of (check_answers env json_data)
     = [EvLog ERROR ($"Unexpected error in " ++ $"check_answers" ++ $": " ++ m)] /\
     outcome (check_answers env json_data)
     = inl (HTTPException HTTP_500_INTERNAL_SERVER_ERROR
              (VStr ($"An unexpected error occurred: " ++ m)))) \/
  (exists items,
     json_data = VDict items /\ answered_items items /\
     check_answers env json_data
     = top_level env $"check_answers" (evaluate_answers env items)).
Proof.
  destruct (is_dict json_data) eqn:Hd.
  2:{ left. destruct json_data; try discriminate Hd;
        (split; [reflexivity | eexists; reflexivity]). }
  destruct json_data as [| | | | | |items]; try discriminate Hd.
  destruct items as [|kv r] eqn:Hi.
  { left. split; [reflexivity | eexists; reflexivity]. }
  rewrite <- Hi. assert (items <> []) as Hne by (rewrite Hi; discriminate).
  clear Hi.
  destruct (answers_decide unstrippable items) as [Hu | Hu].
  { right. left.
    destruct (check_answers_unstrippable env _ Hu) as [q [a [_ [_ [_ Hc]]]]].
    eexists. rewrite Hc. split; reflexivity. }
  destruct (answers_decide empty_value items) as [He | He].
  { left. rewrite (check_answers_empty env items Hu He).
    split; [reflexivity | eexists; reflexivity]. }
  right. right. exists items. split; trivial. split.
  - split; trivial. intros q a Hin. apply answered_value; eauto.
  - apply check_answers_valid; trivial. intros q a Hin. split; eauto.
Qed.

End AnswersAny.

Lemma answered_items_valid (items : list (pystr * pyval)) :
  answered_items items ->
  items <> [] /\
  forall q a, In (q, a) items -> unstrippable a = false /\ empty_value a = false.
Proof.
  intros [Hne Hv]. split; trivial.
  intros q a Hin. destruct (Hv q a Hin) as [s [-> Hb]].
  unfold unstrippable, empty_value. cbn [is_str negb truthy].
  rewrite andb_false_r, Hb, orb_false_r.
  destruct s; [discriminate Hb | split; reflexivity].
Qed.

Section Scoring.

Variable env : collaborators.

Lemma scoring_block_failure (t : list event) (e : exn) :
  top_level env $"check_answers"
    (try_except (t, inl e)
       (fun e0 : exn =>
          if is_EvaluationError e0
          then
            log ERROR ($"Evaluation error: " ++ exn_str env e0) ;;;
            http_error HTTP_500_INTERNAL_SERVER_ERROR
              ($"Evaluation failed: " ++ exn_str env e0)
          else raise e0))
  = (t ++ scoring_log e, inl (scoring_error e)).
Proof.
  rewrite try_except_error.
  destruct e as [code detail | [] m]; cbn [is_EvaluationError fst snd raise];
    try (rewrite top_level_http; reflexivity);
    try (unfold top_level; rewrite try_except_error; cbn;
         now rewrite ?app_nil_r).
  rewrite bind_log. cbn [fst snd http_error raise].
  rewrite top_level_http. reflexivity.
Qed.

End Scoring.

Section ScoringErrors.

Variable env : collaborators.

Lemma scoring_progress (items : list (pystr * pyval)) :
  (exists calls e, scoring_fails env items calls e) \/
  (exists prompt score feedback,
     prepare_prompt_for_answercheck env items = inr prompt /\
     get_evaluation env prompt = inr score /\
     get_feedback_for_score env score = inr feedback).
Proof.
  destruct (prepare_prompt_for_answercheck env items) as [e | prompt] eqn:Hp.
  { left. eexists. eexists. eapply prompt_fails; eassumption. }
  destruct (get_evaluation env prompt) as [e | score] eqn:Hs.
  { left. eexists. eexists. eapply evaluation_fails; eassumption. }
  destruct (get_feedback_for_score env score) as [e | feedback] eqn:Hf.
  { left. eexists. eexists. eapply feedback_fails; eassumption. }
  right. exists prompt, score, feedback. repeat split; trivial.
Qed.

Lemma scoring_failure (items : list (pystr * pyval)) (calls : list event) (e : exn) :
  scoring_fails env items calls e ->
  top_level env $"check_answers" (evaluate_answers env items)
  = (calls ++ scoring_log e, inl (scoring_error e)).
Proof.
  intro H. unfold evaluate_answers.
  destruct H as [e Hp | prompt e Hp Hs | prompt score e Hp Hs Hf].
  - rewrite Hp, bind_call_inl. apply scoring_block_failure.
  - rewrite Hp, bind_call_inr, Hs, bind_call_inl. cbn [fst snd].
    apply scoring_block_failure.
  - rewrite Hp, bind_call_inr, Hs, bind_call_inr, Hf, bind_call_inl. cbn [fst snd].
    apply scoring_block_failure.
Qed.

(** X8: When the validation of POST /check-answers passes and the prompt
    builder, the evaluation client or the feedback function raises, the
    calls stop there: an [EvaluationError] is answered 500 with "Evaluation
    failed: ...", an [HTTPException] goes through unchanged, and any other
    exception is answered 500 with "An unexpected error occurred: ...". *)
Theorem scoring_failure_is_translated (items : list (pystr * pyval))
  (calls : list event) (e : exn) :
  answered_items items ->
  scoring_fails env items calls e ->
  check_answers env (VDict items) = (calls ++ scoring_log e, inl (scoring_error e)).
Proof.
  intros Ha Hf. destruct (answered_items_valid Ha) as [Hne Hv].
  rewrite check_answers_valid by trivial.
  now apply scoring_failure.
Qed.

(** X7: A collaborator of POST /check-answers is called only when the body is a
    map that is not empty and whose answers are all strings that are not
    blank. *)
Theorem collaborators_need_valid_answers (json_data : pyval) (ev : event) :
  In ev (trace_of (check_answers env json_data)) ->
  is_log ev = false ->
  exists items, json_data = VDict items /\ answered_items items.
Proof.
  intros Hin Hl.
  destruct (check_answers_cases env json_data)
    as [[Ht _] | [[m [Ht _]] | [items [Hj [Ha _]]]]].
  - rewrite Ht in Hin. destruct Hin.
  - rewrite Ht in Hin. destruct Hin as [<- | []]. discriminate Hl.
  - eauto.
Qed.

(** X9: When the functions of [api_request] raise no [HTTPException], POST
    /check-answers answers 200, 400 or 500 and nothing else. *)
Theorem check_answers_status_codes (json_data : pyval) :
  scoring_raises_no_http env ->
  exists code,
    answers_with code check_answers_codes (outcome (check_answers env json_data)).
Proof.
  intros [Np [Ne Nf]]. unfold answers_with, check_answers_codes.
  destruct (check_answers_cases env json_data)
    as [[_ [d Ho]] | [[m [_ Ho]] | [items [Hj [Ha Hc]]]]].
  - exists 400. rewrite Ho. split; [reflexivity | right; now left].
  - exists 500. rewrite Ho. split; [reflexivity | right; right; now left].
  - rewrite Hc. destruct (scoring_progress items)
      as [[calls [e Hf]] | [prompt [score [feedback [Hp [Hs Hf]]]]]].
    + rewrite (scoring_failure Hf). exists 500.
      split; [| right; right; now left].
      destruct Hf as [e Hp | prompt e Hp Hs | prompt score e Hp Hs Hf];
        (destruct e as [code detail | [] m];
         [exfalso; first [eapply Np; eassumption | eapply Ne; eassumption
                         | eapply Nf; eassumption] | reflexivity ..]).
    + exists 200. split; [| now left].
      unfold evaluate_answers.
      rewrite Hp, bind_call_inr, Hs, bind_call_inr, Hf, bind_call_inr.
      reflexivity.
Qed.

End ScoringErrors.

(** ** Failures of the extraction *)

Section ExtractionFailure.

Variable env : collaborators.

Lemma extract_resume_text_failure (pdf_data : list N) (calls : list event) (e : exn) :
  extraction_fails env pdf_data calls e ->
  extract_resume_text env pdf_data
  = (calls ++ [EvLog ERROR ($"Error processing PDF: " ++ exn_str env e)],
     inl (extraction_failed (exn_str env e))).
Proof.
  intro H. unfold extract_resume_text.
  destruct H as [e Ho | texts e rest Ho]; rewrite Ho.
  - rewrite bind_call_inl, try_except_error, bind_log. reflexivity.
  - rewrite bind_call_inr, read_pages_failure, bind_error. cbn [fst snd].
    rewrite try_except_error, bind_log. reflexivity.
Qed.

Lemma accepted_payload_parsed (data : option pystr) (kvs : list (pystr * pyval)) :
  accepted_payload env data kvs ->
  parse_json_data env data = ([], inr (VDict kvs)).
Proof.
  intros [s [-> [Hs [Hl Hk]]]].
  assert (kvs <> []) as Hne.
  { intros ->. specialize (Hk (PyStr.lit "techStack") (or_introl eq_refl)).
    discriminate. }
  rewrite (parse_json_data_object env s Hs Hl Hne).
  now rewrite (first_missing_none _ Hk).
Qed.

(** X6: When the document cannot be opened, or the text of one of its pages
    cannot be read, the pages after it are not read, the error is logged and
    the request is answered 500 with "Failed to process PDF: ..." followed by
    the message of the exception: in POST /questions for a payload that was
    accepted, in POST /complete-evaluation whatever the other inputs are. *)
Theorem extraction_failure_is_answered_500 (file : UploadFile)
  (data : option pystr) (kvs : list (pystr * pyval)) (tech_stack : pystr)
  (difficulty question_count : Z) (answers : list (pystr * pystr))
  (calls : list event) (e : exn) :
  is_pdf_content_type (content_type file) = true ->
  extraction_fails env (content file) calls e ->
  let answer :=
    (EvFileRead :: calls
       ++ [EvLog ERROR ($"Error processing PDF: " ++ exn_str env e)],
     inl (HTTPException HTTP_500_INTERNAL_SERVER_ERROR
            (VStr ($"Failed to process PDF: " ++ exn_str env e)))) in
  (accepted_payload env data kvs -> langchain_questions env file data = answer) /\
  complete_evaluation env file tech_stack difficulty question_count answers = answer.
Proof.
  intros Hct Hf answer.
  pose proof (extract_resume_text_failure Hf) as He.
  split.
  - intro Ha. apply accepted_payload_parsed in Ha.
    apply (langchain_questions_unextracted env _ _ Hct Ha He).
  - apply (complete_evaluation_unextracted env _ _ _ _ _ Hct He).
Qed.

End ExtractionFailure.

(** ** The validation and the result of POST /complete-evaluation *)

Lemma py_getitem_error (v : pyval) (key : pystr) (e : exn) :
  py_getitem v key = inl e -> exists c m, e = PyExc c m.
Proof.
  unfold py_getitem. intro H.
  destruct v; try (injection H as <-; eauto).
  destruct (dict_get key d); [discriminate H | injection H as <-; eauto].
Qed.

Section CompleteResult.

Variable env : collaborators.

Variable file : UploadFile.
Variable texts : list pystr.
Hypothesis pdf : is_pdf_content_type (content_type file) = true.
Hypothesis opened : fitz_open env (content file) = inr (map inr texts).
Hypothesis readable : forallb PyStr.isspace (concat texts) = false.

Lemma complete_evaluation_validated (tech_stack : pystr)
  (difficulty question_count : Z) (answers : list (pystr * pystr)) :
  let rest :=
    top_level env $"complete_evaluation"
      (checked <- validate_inputs tech_stack difficulty question_count answers ;;
       perform_evaluation env (concat texts) tech_stack (fst checked) (snd checked)
         answers) in
  complete_evaluation env file tech_stack difficulty question_count answers
  = (EvFileRead :: (EvFitzOpen (content file) :: page_events 0 (List.length texts))
       ++ fst rest, snd rest).
Proof.
  apply complete_evaluation_extracted; trivial.
  apply extract_text_ok; trivial. now rewrite blank_whitespace.
Qed.

Lemma complete_evaluation_refused (tech_stack : pystr)
  (difficulty question_count : Z) (answers : list (pystr * pystr))
  (detail : pystr) :
  validate_inputs tech_stack difficulty question_count answers
  = ([], inl (HTTPException HTTP_400_BAD_REQUEST (VStr detail))) ->
  outcome (complete_evaluation env file tech_stack difficulty question_count answers)
  = inl (HTTPException HTTP_400_BAD_REQUEST (VStr detail)).
Proof.
  intro Hv. rewrite complete_evaluation_validated. cbv zeta.
  rewrite Hv, bind_error, top_level_http. reflexivity.
Qed.

(** X3: When the text of the PDF was extracted, the inputs are checked in the
    order tech stack, difficulty, question count, answers, and the detail of
    the 400 is the one of the first check that fails. *)
Theorem first_invalid_input_is_reported (tech_stack : pystr)
  (difficulty question_count : Z) (answers : list (pystr * pystr)) :
  let answer :=
    outcome (complete_evaluation env file tech_stack difficulty question_count
               answers) in
  let refused (detail : pystr) :=
    inl (HTTPException HTTP_400_BAD_REQUEST (VStr detail)) in
  (forallb PyStr.isspace tech_stack = true ->
   answer = refused $"Tech stack cannot be empty") /\
  (forallb PyStr.isspace tech_stack = false ->
   difficulty < 1 \/ 5 < difficulty ->
   answer = refused $"Difficulty must be an integer between 1 and 5") /\
  (forallb PyStr.isspace tech_stack = false ->
   1 <= difficulty <= 5 ->
   question_count < 1 \/ 20 < question_count ->
   answer = refused $"Question count must be an integer between 1 and 20") /\
  (forallb PyStr.isspace tech_stack = false ->
   1 <= difficulty <= 5 ->
   1 <= question_count <= 20 ->
   answers = [] ->
   answer = refused $"No answers provided for evaluation").
Proof.
  cbv zeta.
  assert (forall ts, forallb PyStr.isspace ts = false ->
            negb (PyStr.truthy ts) || PyStr.blank ts = false) as Hts.
  { intros ts H. rewrite blank_whitespace, H.
    destruct ts; [discriminate H | reflexivity]. }
  assert (forall lo hi v, lo <= v <= hi -> (lo <=? v) && (v <=? hi) = true) as Hin.
  { intros lo hi v H. apply andb_true_intro. split; apply Z.leb_le; lia. }
  assert (forall lo hi v, v < lo \/ hi < v -> (lo <=? v) && (v <=? hi) = false) as Hout.
  { intros lo hi v H. apply andb_false_iff.
    destruct H; [left | right]; apply Z.leb_gt; lia. }
  repeat split.
  - intro Ht. apply complete_evaluation_refused. unfold validate_inputs.
    rewrite blank_whitespace, Ht, orb_true_r, raise_if_true, bind_raise.
    reflexivity.
  - intros Ht Hd. apply complete_evaluation_refused. unfold validate_inputs.
    rewrite (Hts _ Ht), raise_if_false, bind_ret, check_range_spec, (Hout _ _ _ Hd).
    rewrite bind_raise. reflexivity.
  - intros Ht Hd Hq. apply complete_evaluation_refused. unfold validate_inputs.
    rewrite (Hts _ Ht), raise_if_false, bind_ret, !check_range_spec,
      (Hin _ _ _ Hd), bind_ret, (Hout _ _ _ Hq), bind_raise.
    reflexivity.
  - intros Ht Hd Hq ->. apply complete_evaluation_refused. unfold validate_inputs.
    rewrite (Hts _ Ht), raise_if_false, bind_ret, !check_range_spec,
      (Hin _ _ _ Hd), bind_ret, (Hin _ _ _ Hq), bind_ret, raise_if_true, bind_raise.
    reflexivity.
Qed.

Variable tech_stack : pystr.
Variable difficulty question_count : Z.
Variable answers : list (pystr * pystr).
Hypothesis stack_given : forallb PyStr.isspace tech_stack = false.
Hypothesis difficulty_in_range : 1 <= difficulty <= 5.
Hypothesis count_in_range : 1 <= question_count <= 20.
Hypothesis answers_given : answers <> [].

Lemma complete_evaluation_performed :
  let rest :=
    top_level env $"complete_evaluation"
      (perform_evaluation env (concat texts) tech_stack difficulty question_count
         answers) in
  complete_evaluation env file tech_stack difficulty question_count answers
  = (EvFileRead :: (EvFitzOpen (content file) :: page_events 0 (List.length texts))
       ++ fst rest, snd rest).
Proof.
  rewrite complete_evaluation_validated. cbv zeta.
  rewrite validate_inputs_valid by trivial.
  rewrite bind_value. cbn [fst snd app]. now rewrite pair_eta.
Qed.

(** X4: When the request reaches the combined procedure: an object whose
    status is anything but the string "error" is returned as it is; an object
    without the key "status", or with the status "error" and without the key
    "error", and a result that is not an object, are answered 500 by the
    outermost handler; an exception of the procedure that is not an
    [HTTPException] is answered 500 with its message. *)
Theorem result_is_returned_unless_error :
  let answer :=
    outcome (complete_evaluation env file tech_stack difficulty question_count
               answers) in
  let result :=
    evaluate_candidate env (concat texts) tech_stack difficulty question_count
      answers in
  let unexpected (m : pystr) :=
    inl (HTTPException HTTP_500_INTERNAL_SERVER_ERROR
           (VStr ($"An unexpected error occurred: " ++ m))) in
  (forall res status,
     result = inr (VDict res) ->
     dict_get $"status" res = Some status ->
     py_eq_str status $"error" = false ->
     answer = inr (Return (VDict res))) /\
  (forall res,
     result = inr (VDict res) ->
     dict_get $"status" res = None ->
     answer = unexpected $"'status'") /\
  (forall res,
     result = inr (VDict res) ->
     dict_get $"status" res = Some (VStr $"error") ->
     dict_get $"error" res = None ->
     answer = unexpected $"'error'") /\
  (forall v,
     result = inr v -> is_dict v = false ->
     exists m, answer = unexpected m) /\
  (forall c m, result = inl (PyExc c m) -> answer = unexpected m).
Proof.
  cbv zeta. rewrite complete_evaluation_performed.
  unfold outcome. cbn [snd]. fold (outcome (top_level env $"complete_evaluation"
    (perform_evaluation env (concat texts) tech_stack difficulty question_count answers))).
  rewrite top_level_outcome. unfold perform_evaluation.
  repeat split.
  - intros res status Hr Hs Hn. rewrite Hr, bind_call_inr.
    unfold outcome, py_getitem. cbn [snd].
    rewrite Hs, bind_lift_inr, Hn, !bind_ret. reflexivity.
  - intros res Hr Hs. rewrite Hr, bind_call_inr.
    unfold outcome, py_getitem. cbn [snd].
    rewrite Hs, bind_lift_inl. reflexivity.
  - intros res Hr Hs He. rewrite Hr, bind_call_inr.
    unfold outcome, py_getitem. cbn [snd].
    rewrite Hs, bind_lift_inr. unfold py_eq_str. rewrite eqb_refl.
    rewrite He, bind_lift_inl, bind_raise. reflexivity.
  - intros v Hr Hd. rewrite Hr, bind_call_inr.
    unfold outcome. cbn [snd].
    destruct v; try discriminate Hd; eexists; reflexivity.
  - intros c m Hr. rewrite Hr, bind_call_inl. reflexivity.
Qed.

End CompleteResult.

(** ** The status codes of POST /complete-evaluation *)

Section CompleteCodes.

Variable env : collaborators.

Lemma perform_evaluation_outcome (text tech_stack : pystr)
  (difficulty question_count : Z) (answers : list (pystr * pystr)) :
  candidate_raises_no_http env ->
  let o := outcome (perform_evaluation env text tech_stack difficulty
                      question_count answers) in
  (exists res, o = inr (Return res)) \/
  (exists detail, o = inl (HTTPException HTTP_500_INTERNAL_SERVER_ERROR detail)) \/
  (exists c m, o = inl (PyExc c m)).
Proof.
  intros Hn o. subst o. unfold perform_evaluation.
  destruct (evaluate_candidate env text tech_stack difficulty question_count answers)
    as [[code detail | c m] | res] eqn:He.
  - destruct (Hn _ _ _ _ _ _ _ He).
  - right. right. exists c, m. reflexivity.
  - rewrite bind_call_inr. unfold outcome. cbn [snd].
    destruct (py_getitem res $"status") as [e | st] eqn:Hs.
    + destruct (py_getitem_error _ _ Hs) as [c [m ->]].
      right. right. exists c, m. reflexivity.
    + rewrite bind_lift_inr.
      destruct (py_eq_str st $"error").
      * destruct (py_getitem res $"error") as [e | detail] eqn:Hd.
        -- destruct (py_getitem_error _ _ Hd) as [c [m ->]].
           right. right. exists c, m. reflexivity.
        -- right. left. exists detail.
           rewrite bind_lift_inr, bind_raise. reflexivity.
      * left. exists res. rewrite !bind_ret. reflexivity.
Qed.

(** X5: When [evaluate_candidate] raises no [HTTPException], POST
    /complete-evaluation answers 200, 400, 415 or 500 and nothing else; in
    particular never 422. *)
Theorem complete_evaluation_status_codes (file : UploadFile) (tech_stack : pystr)
  (difficulty question_count : Z) (answers : list (pystr * pystr)) :
  candidate_raises_no_http env ->
  exists code,
    answers_with code complete_evaluation_codes
      (outcome (complete_evaluation env file tech_stack difficulty question_count
                  answers)).
Proof.
  intro Hn. unfold answers_with, complete_evaluation_codes, complete_evaluation.
  rewrite top_level_outcome, bind_outcome, raise_if_outcome.
  destruct (is_pdf_content_type (content_type file)); cbn [negb].
  2:{ exists 415. split; [reflexivity | cbn; tauto]. }
  unfold file_read. rewrite bind_call_inr. unfold outcome at 1. cbn [snd].
  fold (outcome (resume_text <- extract_resume_text env (content file);;
                 checked <- validate_inputs tech_stack difficulty question_count answers;;
                 perform_evaluation env resume_text tech_stack (fst checked)
                   (snd checked) answers)).
  rewrite bind_outcome.
  destruct (extract_resume_text_cases env (content file))
    as [_ [[text [-> _]] | [m ->]]].
  2:{ exists 500. split; [reflexivity | cbn; tauto]. }
  rewrite bind_outcome.
  destruct (validate_inputs_cases tech_stack difficulty question_count answers)
    as [[detail Hv] | [_ [_ [_ [_ Hv]]]]]; rewrite Hv; unfold outcome at 1; cbn [snd fst].
  { exists 400. split; [reflexivity | cbn; tauto]. }
  destruct (perform_evaluation_outcome text tech_stack difficulty
              question_count answers Hn) as [[res Ho] | [[detail Ho] | [c [m Ho]]]];
    rewrite Ho.
  - exists 200. split; [reflexivity | cbn; tauto].
  - exists 500. split; [reflexivity | cbn; tauto].
  - exists 500. split; [reflexivity | cbn; tauto].
Qed.

End CompleteCodes.

(** ** The generation block, whatever the collaborators do *)

Section GenerationAny.

Variable env : collaborators.

Lemma generation_handler (t : list event) (e : exn) :
  @try_except result (t, inl e)
    (fun e0 : exn =>
       if is_ValueError e0
       then http_error HTTP_400_BAD_REQUEST (exn_str env e0)
       else
         log ERROR ($"Error generating questions: " ++ exn_str env e0) ;;;
         http_error HTTP_500_INTERNAL_SERVER_ERROR
           ($"Failed to generate questions: " ++ exn_str env e0))
  = (t ++ generation_log env e, inl (generation_error env e)).
Proof.
  rewrite try_except_error. unfold generation_log, generation_error.
  destruct (is_ValueError e).
  - reflexivity.
  - rewrite bind_log. reflexivity.
Qed.

Lemma generation_log_is_log (e : exn) :
  forallb is_log (generation_log env e) = true.
Proof. unfold generation_log. now destruct (is_ValueError e). Qed.

Lemma generation_error_answer (e : exn) :
  generation_answer (inl (generation_error env e)).
Proof. unfold generation_error. destruct (is_ValueError e); constructor. Qed.

(** The block calls the prompt builder with the extracted text, then the
    evaluation client, each at most once, and hands back an answer or a 400
    or a 500. *)
Lemma generate_questions_shape (processed_data json_data : pyval) (text : pystr) :
  exists calls logs r,
    generate_questions env processed_data json_data text = (calls ++ logs, r) /\
    generation_calls text calls /\
    forallb is_log logs = true /\
    generation_answer r.
Proof.
  unfold generate_questions.
  destruct (py_getitem json_data $"techStack") as [e | ts].
  { rewrite bind_lift_inl. unfold raise. rewrite generation_handler.
    exists [], (generation_log env e). eexists. split; [reflexivity |].
    split; [constructor |]. split; [apply generation_log_is_log |].
    apply generation_error_answer. }
  rewrite bind_lift_inr.
  destruct (py_getitem json_data $"difficultyLevel") as [e | d].
  { rewrite bind_lift_inl. unfold raise. rewrite generation_handler.
    exists [], (generation_log env e). eexists. split; [reflexivity |].
    split; [constructor |]. split; [apply generation_log_is_log |].
    apply generation_error_answer. }
  rewrite bind_lift_inr.
  destruct (py_getitem json_data $"questionCount") as [e | qc].
  { rewrite bind_lift_inl. unfold raise. rewrite generation_handler.
    exists [], (generation_log env e). eexists. split; [reflexivity |].
    split; [constructor |]. split; [apply generation_log_is_log |].
    apply generation_error_answer. }
  rewrite bind_lift_inr.
  destruct (prepare_prompt env text ts d qc) as [e | prompt].
  { rewrite bind_call_inl, generation_handler.
    eexists. exists (generation_log env e). eexists. split; [reflexivity |].
    split; [constructor |]. split; [apply generation_log_is_log |].
    apply generation_error_answer. }
  rewrite bind_call_inr, bind_log. cbn [fst snd].
  destruct (get_questions env prompt) as [e | questions].
  { rewrite bind_call_inl. cbn [fst snd]. rewrite generation_handler.
    eexists. exists (generation_log env e). eexists. split; [reflexivity |].
    split; [constructor |]. split; [apply generation_log_is_log |].
    apply generation_error_answer. }
  rewrite bind_call_inr.
  destruct questions as [|q r].
  - rewrite bind_log. cbn [fst snd ret]. rewrite try_except_value.
    exists [EvPreparePrompt text ts d qc;
            EvLog INFO ($"Generated prompt for questions, length: "
                        ++ PyStr.of_nat (List.length prompt));
            EvGetQuestions prompt].
    exists [EvLog WARNING $"No questions were generated"]. eexists.
    split; [reflexivity |].
    split; [constructor |]. split; [reflexivity | constructor].
  - cbn [fst snd ret]. rewrite try_except_value.
    exists [EvPreparePrompt text ts d qc;
            EvLog INFO ($"Generated prompt for questions, length: "
                        ++ PyStr.of_nat (List.length prompt));
            EvGetQuestions prompt].
    exists []. eexists.
    split; [reflexivity |].
    split; [constructor |]. split; [reflexivity | constructor].
Qed.

End GenerationAny.

(** ** The payload block, whatever [json.loads] does *)

Section PayloadAny.

Variable env : collaborators.

Lemma check_required_cases (json_data : pyval) (fields : list pystr) :
  check_required json_data fields = ([], inr tt) \/
  (exists f, In f fields /\
     check_required json_data fields = ([], inl (missing_field f))) \/
  (exists m, is_scalar json_data = true /\
     check_required json_data fields = ([], inl (PyExc TypeError m))).
Proof.
  induction fields as [|f r IH].
  - now left.
  - cbn [check_required].
    destruct (py_contains f json_data) as [e | present] eqn:Hc.
    + right. right. rewrite bind_lift_inl.
      destruct json_data; try discriminate Hc;
        injection Hc as <-; eexists; split; reflexivity.
    + rewrite bind_lift_inr. destruct present; cbn [negb].
      * rewrite raise_if_false, bind_ret.
        destruct IH as [H | [[g [Hin H]] | [m [Hs H]]]].
        -- now left.
        -- right. left. exists g. split; [now right | trivial].
        -- right. right. exists m. split; trivial.
      * right. left. exists f. split; [now left |].
        rewrite raise_if_true, bind_raise. reflexivity.
Qed.

Lemma check_required_present (json_data : pyval) (fields : list pystr) :
  (forall f, In f fields -> py_contains f json_data = inr true) ->
  check_required json_data fields = ([], inr tt).
Proof.
  induction fields as [|f r IH]; intro H; trivial.
  cbn [check_required]. rewrite (H f) by now left.
  rewrite bind_lift_inr. cbn [negb]. rewrite raise_if_false, bind_ret.
  apply IH. intros g Hg. apply H. now right.
Qed.

(** The block calls nothing that is recorded, and hands back the decoded
    value, a 400, or the exception of [json.loads] or of [in]. *)
Lemma parse_json_data_cases (data : option pystr) :
  loads_raises_no_http env ->
  (exists json_data, parse_json_data env data = ([], inr json_data)) \/
  (exists detail,
     parse_json_data env data
     = ([], inl (HTTPException HTTP_400_BAD_REQUEST detail))) \/
  (exists c m, parse_json_data env data = ([], inl (PyExc c m))).
Proof.
  intro Hn.
  assert (parse_json_data env None = ([], inl no_parameters)) as Hnone by reflexivity.
  destruct data as [s|]; [| right; left; eexists; exact Hnone].
  unfold parse_json_data.
  destruct (PyStr.truthy s) eqn:Hs; [| right; left; eexists; reflexivity].
  destruct (json_loads env s) as [[code detail | c m] | v] eqn:Hl.
  - destruct (Hn _ _ _ Hl).
  - rewrite bind_lift_inl, try_except_raise.
    destruct c; cbn [is_JSONDecodeError];
      first [ right; left; eexists; reflexivity
            | right; right; eexists; eexists; reflexivity ].
  - rewrite bind_lift_inr.
    destruct (truthy v) eqn:Hv; cbn [negb].
    2:{ rewrite raise_if_true, bind_raise, try_except_raise.
        right. left. eexists. reflexivity. }
    rewrite raise_if_false, bind_ret.
    destruct (check_required_cases v required_fields)
      as [H | [[f [_ H]] | [m [_ H]]]]; rewrite H.
    + left. exists v. reflexivity.
    + right. left. eexists. reflexivity.
    + right. right. eexists. eexists. reflexivity.
Qed.

End PayloadAny.

(** ** POST /questions, whatever the collaborators do *)

Lemma extraction_events_quiet (tr : list event) :
  forallb extraction_event tr = true -> forallb quiet tr = true.
Proof.
  intro H. rewrite forallb_forall in *. intros x Hx.
  specialize (H x Hx). destruct x; trivial; discriminate H.
Qed.

Lemma logs_quiet (tr : list event) :
  forallb is_log tr = true -> forallb quiet tr = true.
Proof.
  intro H. rewrite forallb_forall in *. intros x Hx.
  specialize (H x Hx). destruct x; trivial; discriminate H.
Qed.

Section QuestionsAny.

Variable env : collaborators.

Lemma parse_json_data_trace (data : option pystr) :
  trace_of (parse_json_data env data) = [].
Proof.
  destruct data as [s|]; [| reflexivity].
  unfold parse_json_data.
  destruct (PyStr.truthy s); [| reflexivity].
  destruct (json_loads env s) as [e | v].
  - rewrite bind_lift_inl, try_except_raise.
    destruct (is_JSONDecodeError e); reflexivity.
  - rewrite bind_lift_inr.
    destruct (truthy v); cbn [negb].
    2:{ rewrite raise_if_true, bind_raise, try_except_raise. reflexivity. }
    rewrite raise_if_false, bind_ret.
    destruct (check_required_cases v required_fields)
      as [H | [[f [_ H]] | [m [_ H]]]]; rewrite H; reflexivity.
Qed.

Lemma top_level_log (name : pystr) (o : exn + result) :
  forallb is_log
    match o with
    | inl (PyExc c m) =>
        [EvLog ERROR ($"Unexpected error in " ++ name ++ $": " ++ m)]
    | _ => []
    end = true.
Proof. destruct o as [[? ? | ? ?] | ?]; reflexivity. Qed.

(** The calls of a request: calls that reach neither a prompt builder nor
    the evaluation client, then the calls of the generation block for a text
    that is not blank, then log entries. *)
Lemma langchain_questions_shape (file : UploadFile) (data : option pystr) :
  exists pre text calls logs,
    trace_of (langchain_questions env file data) = pre ++ calls ++ logs /\
    forallb quiet pre = true /\
    generation_calls text calls /\
    forallb is_log logs = true /\
    (calls <> [] -> forallb PyStr.isspace text = false).
Proof.
  unfold langchain_questions. rewrite top_level_trace.
  match goal with |- context [?b ++ match outcome ?o with _ => _ end] =>
    pose proof (top_level_log $"langchain_questions" (outcome o)) as Hlog;
    set (toplog := match outcome o with
                   | inl (PyExc c m) =>
                       [EvLog ERROR ($"Unexpected error in "
                                     ++ $"langchain_questions" ++ $": " ++ m)]
                   | _ => []
                   end) in *
  end.
  clearbody toplog.
  rewrite bind_trace, raise_if_trace, raise_if_outcome. cbn [app].
  destruct (is_pdf_content_type (content_type file)); cbn [negb].
  2:{ exists [], [], [], toplog. repeat split; trivial; try constructor.
      intro H. now destruct H. }
  unfold file_read. rewrite bind_call_inr. unfold trace_of at 1. cbn [fst].
  pose proof (parse_json_data_trace data) as Hp.
  destruct (parse_json_data env data) as [tp [e | json_data]];
    unfold trace_of in Hp; cbn [fst] in Hp; subst tp.
  { rewrite bind_error. cbn [fst].
    exists [EvFileRead], [], [], toplog. repeat split; trivial; try constructor.
    intro H. now destruct H. }
  rewrite bind_value. cbn [fst app].
  destruct (extract_resume_text_cases env (content file)) as [Hev Hcases].
  destruct (extract_resume_text env (content file)) as [tr r].
  unfold trace_of in Hev. unfold outcome in Hcases. cbn [fst snd] in *.
  apply extraction_events_quiet in Hev.
  destruct Hcases as [[text [-> Hb]] | [m ->]].
  2:{ rewrite bind_error. cbn [fst].
      exists (EvFileRead :: tr), [], [], toplog.
      repeat split; trivial; try constructor.
      intro H. now destruct H. }
  rewrite bind_value. cbn [fst].
  destruct (generate_questions_shape env
              (processed_data_of file (content file) json_data) json_data text)
    as [calls [logs [rg [Hg [Hc [Hl _]]]]]].
  rewrite Hg. cbn [fst].
  exists (EvFileRead :: tr), text, calls, (logs ++ toplog).
  split; [cbn [app]; now rewrite <- !app_assoc |].
  split; [exact Hev |]. split; [exact Hc |].
  split; [rewrite forallb_app, Hl; exact Hlog | trivial].
Qed.

End QuestionsAny.

(** ** Properties that hold whatever the collaborators do *)

Lemma quiet_no_evaluation (tr : list event) :
  forallb quiet tr = true -> evaluation_calls tr = [].
Proof.
  intro H. apply filter_empty. intros x Hx.
  rewrite forallb_forall in H. specialize (H x Hx).
  unfold quiet in H. apply andb_prop in H. destruct H as [_ H].
  now apply negb_true_iff in H.
Qed.

Lemma quiet_prompt_from_text (tr : list event) :
  forallb quiet tr = true -> Forall prompt_from_text tr.
Proof.
  intro H. apply Forall_forall. intros x Hx.
  rewrite forallb_forall in H. specialize (H x Hx).
  destruct x; try exact I. discriminate H.
Qed.

Section Invariants.

Variable env : collaborators.

(** X16: Whatever the collaborators do, the prompt builder of POST /questions is
    only ever given an extracted text that is not blank. *)
Theorem prompt_is_built_from_extracted_text (file : UploadFile)
  (data : option pystr) :
  Forall prompt_from_text (trace_of (langchain_questions env file data)).
Proof.
  destruct (langchain_questions_shape env file data)
    as [pre [text [calls [logs [-> [Hp [Hc [Hl Hb]]]]]]]].
  apply Forall_app. split; [now apply quiet_prompt_from_text |].
  apply Forall_app. split; [| apply quiet_prompt_from_text; now apply logs_quiet].
  destruct Hc as [| ts d qc | ts d qc prompt].
  - constructor.
  - constructor; [| constructor]. apply Hb. discriminate.
  - repeat constructor. apply Hb. discriminate.
Qed.

(** X17: Whatever the collaborators do, a request makes at most one call to the
    evaluation client ([get_questions], [get_evaluation] or
    [evaluate_candidate]): nothing is retried. *)
Theorem at_most_one_evaluation_call :
  (forall file data,
     (List.length (evaluation_calls (trace_of (langchain_questions env file data)))
      <= 1)%nat) /\
  (forall json_data,
     (List.length (evaluation_calls (trace_of (check_answers env json_data)))
      <= 1)%nat) /\
  (forall file tech_stack difficulty question_count answers,
     (List.length
        (evaluation_calls
           (trace_of (complete_evaluation env file tech_stack difficulty
                        question_count answers)))
      <= 1)%nat).
Proof.
  split; [| split].
  - intros file data.
    destruct (langchain_questions_shape env file data)
      as [pre [text [calls [logs [-> [Hp [Hc [Hl _]]]]]]]].
    unfold evaluation_calls. rewrite !filter_app.
    fold (evaluation_calls pre). fold (evaluation_calls logs).
    rewrite (quiet_no_evaluation _ Hp), (quiet_no_evaluation _ (logs_quiet _ Hl)).
    rewrite app_nil_r. cbn [app].
    destruct Hc; cbn; lia.
  - intro json_data.
    destruct (check_answers_cases env json_data)
      as [[Ht _] | [[m [Ht _]] | [items [_ [_ Hc]]]]].
    + rewrite Ht. cbn. lia.
    + rewrite Ht. cbn. lia.
    + rewrite Hc.
      destruct (scoring_progress env items)
        as [[calls [e Hf]] | [prompt [score [feedback [Hp [Hs Hf]]]]]].
      * rewrite (scoring_failure Hf). unfold trace_of. cbn [fst].
        destruct Hf; (destruct e as [code detail | [] m]; cbn; lia).
      * unfold evaluate_answers.
        rewrite Hp, bind_call_inr, Hs, bind_call_inr, Hf, bind_call_inr.
        cbn. lia.
  - intros file tech_stack difficulty question_count answers.
    unfold complete_evaluation. rewrite top_level_trace.
    unfold evaluation_calls. rewrite filter_app, length_app.
    match goal with |- (_ + List.length (filter _ ?l) <= 1)%nat =>
      assert (filter is_evaluation_call l = []) as ->
    end.
    { destruct (outcome _) as [[? ? | ? ?] | ?]; reflexivity. }
    cbn [List.length]. rewrite Nat.add_0_r.
    rewrite bind_trace, raise_if_trace, raise_if_outcome. cbn [app].
    destruct (is_pdf_content_type (content_type file)); cbn [negb]; [| cbn; lia].
    unfold file_read. rewrite bind_call_inr. unfold trace_of at 1. cbn [fst].
    cbn [filter is_evaluation_call].
    destruct (extract_resume_text_cases env (content file)) as [Hev Hcases].
    destruct (extract_resume_text env (content file)) as [tr r].
    unfold trace_of in Hev. unfold outcome in Hcases. cbn [fst snd] in *.
    apply extraction_events_quiet, quiet_no_evaluation in Hev.
    unfold evaluation_calls in Hev.
    destruct Hcases as [[text [-> Hb]] | [m ->]].
    + rewrite bind_value. cbn [fst]. rewrite filter_app, Hev. cbn [app].
      destruct (validate_inputs_cases tech_stack difficulty question_count answers)
        as [[detail Hv] | [_ [_ [_ [_ Hv]]]]]; rewrite Hv.
      * rewrite bind_error. cbn. lia.
      * rewrite bind_value. cbn [fst snd app].
        fold (trace_of (perform_evaluation env text tech_stack difficulty
                          question_count answers)).
        rewrite perform_evaluation_trace. cbn. lia.
    + rewrite bind_error. cbn [fst]. rewrite Hev. cbn. lia.
Qed.

End Invariants.

(** ** The answers of POST /questions *)

Section QuestionsAnswers.

Variable env : collaborators.

(** X15: When [json.loads] raises no [HTTPException], POST /questions answers
    200, 204, 400, 415 or 500 and nothing else; in particular never 422. *)
Theorem questions_status_codes (file : UploadFile) (data : option pystr) :
  loads_raises_no_http env ->
  exists code,
    answers_with code questions_codes
      (outcome (langchain_questions env file data)).
Proof.
  intro Hn. unfold answers_with, questions_codes, langchain_questions.
  rewrite top_level_outcome, bind_outcome, raise_if_outcome.
  destruct (is_pdf_content_type (content_type file)); cbn [negb].
  2:{ exists 415. split; [reflexivity | cbn; tauto]. }
  unfold file_read. rewrite bind_call_inr. unfold outcome at 1. cbn [snd].
  destruct (parse_json_data_cases data Hn)
    as [[json_data Hp] | [[detail Hp] | [c [m Hp]]]]; rewrite Hp.
  2:{ rewrite bind_error. exists 400. split; [reflexivity | cbn; tauto]. }
  2:{ rewrite bind_error. exists 500. split; [reflexivity | cbn; tauto]. }
  rewrite bind_value. cbn [snd].
  destruct (extract_resume_text_cases env (content file))
    as [_ Hcases].
  destruct (extract_resume_text env (content file)) as [tr r].
  unfold outcome in Hcases. cbn [snd] in Hcases.
  destruct Hcases as [[text [-> _]] | [m ->]].
  2:{ rewrite bind_error. exists 500. split; [reflexivity | cbn; tauto]. }
  rewrite bind_value. cbn [snd].
  destruct (generate_questions_shape env
              (processed_data_of file (content file) json_data) json_data text)
    as [calls [logs [rg [Hg [_ [_ Ha]]]]]].
  rewrite Hg. cbn [snd].
  destruct Ha.
  - exists 200. split; [reflexivity | cbn; tauto].
  - exists 204. split; [reflexivity | cbn; tauto].
  - exists 400. split; [reflexivity | cbn; tauto].
  - exists 500. split; [reflexivity | cbn; tauto].
Qed.

End QuestionsAnswers.

Section QuestionsStages.

Variable env : collaborators.
Variable file : UploadFile.
Hypothesis pdf : is_pdf_content_type (content_type file) = true.

Lemma generate_questions_failure (processed_data : pyval)
  (kvs : list (pystr * pyval)) (text : pystr) (calls : list event) (e : exn) :
  generation_fails env text kvs calls e ->
  generate_questions env processed_data (VDict kvs) text
  = (calls ++ generation_log env e, inl (generation_error env e)).
Proof.
  intro H. unfold generate_questions, py_getitem.
  destruct H as [ts d qc e Ht Hd Hq Hp | ts d qc prompt e Ht Hd Hq Hp Hg];
    rewrite Ht, Hd, Hq, !bind_lift_inr, Hp.
  - rewrite bind_call_inl. apply generation_handler.
  - rewrite bind_call_inr, bind_log. cbn [fst snd].
    rewrite Hg, bind_call_inl. cbn [fst snd].
    apply generation_handler.
Qed.

Lemma generation_error_is_http (e : exn) :
  exists code detail, generation_error env e = HTTPException code detail.
Proof.
  unfold generation_error. destruct (is_ValueError e); eexists; eexists; reflexivity.
Qed.

(** X13: When the generation block of POST /questions is reached and the prompt
    builder or the evaluation client raises: a [ValueError] (so also a
    [JSONDecodeError]) is answered 400 with its message and is not logged;
    any other exception, an [HTTPException] included, is logged and answered
    500 with "Failed to generate questions: ..." and its message.
    ([EvaluationError] is taken to derive from [Exception] directly.) *)
Theorem generation_failure_is_translated (data : option pystr)
  (kvs : list (pystr * pyval)) (texts : list pystr) (calls : list event)
  (e : exn) :
  accepted_payload env data kvs ->
  fitz_open env (content file) = inr (map inr texts) ->
  forallb PyStr.isspace (concat texts) = false ->
  generation_fails env (concat texts) kvs calls e ->
  langchain_questions env file data
  = (EvFileRead :: (EvFitzOpen (content file) :: page_events 0 (List.length texts))
       ++ calls ++ generation_log env e,
     inl (generation_error env e)).
Proof.
  intros Ha Ho Hb Hf.
  apply accepted_payload_parsed in Ha.
  rewrite <- blank_whitespace in Hb.
  pose proof (extract_text_ok env _ _ Ho Hb) as He.
  rewrite (langchain_questions_extracted env _ _ pdf Ha He). cbv zeta.
  rewrite (generate_questions_failure _ Hf).
  destruct (generation_error_is_http e) as [code [detail ->]].
  rewrite top_level_http. reflexivity.
Qed.

(** X11: When the payload of POST /questions decodes to a true value that is
    neither an object, an array nor a string (a number, [true]), the test
    [field not in json_data] raises, and the request is answered 500 by the
    outermost handler after the file was read and before the extraction. *)
Theorem scalar_payload_is_answered_500 (s : pystr) (v : pyval) :
  PyStr.truthy s = true ->
  json_loads env s = inr v ->
  is_scalar v = true ->
  truthy v = true ->
  exists m,
    langchain_questions env file (Some s)
    = ([EvFileRead;
        EvLog ERROR ($"Unexpected error in " ++ $"langchain_questions" ++ $": " ++ m)],
       inl (HTTPException HTTP_500_INTERNAL_SERVER_ERROR
              (VStr ($"An unexpected error occurred: " ++ m)))).
Proof.
  intros Hs Hl Hv Ht.
  assert (exists m, parse_json_data env (Some s) = ([], inl (PyExc TypeError m)))
    as [m Hp].
  { unfold parse_json_data. rewrite Hs. unfold lift. rewrite Hl.
    rewrite bind_value. rewrite Ht. cbn [negb fst snd app].
    rewrite raise_if_false. cbn [fst snd ret app].
    destruct v; try discriminate Hv; eexists; reflexivity. }
  exists m. unfold langchain_questions.
  rewrite pdf. cbn [negb]. rewrite raise_if_false, bind_ret.
  unfold file_read. rewrite bind_call_inr, Hp, bind_error. cbn [fst snd].
  unfold top_level. rewrite try_except_error. reflexivity.
Qed.

(** X12: The test of the required fields is the operator [in], not a lookup of
    keys: a payload that decodes to an array holding the three names, or to a
    string containing them, goes through the validation and the extraction;
    the subscript [json_data['techStack']] then raises, no prompt is built, the
    evaluation client is not called, and the request is answered 500. *)
Theorem keyless_payload_passes_the_field_check (s : pystr) (v : pyval)
  (texts : list pystr) :
  PyStr.truthy s = true ->
  json_loads env s = inr v ->
  keyless_with_names v ->
  fitz_open env (content file) = inr (map inr texts) ->
  forallb PyStr.isspace (concat texts) = false ->
  let m := langchain_questions env file (Some s) in
  parse_json_data env (Some s) = ([], inr v) /\
  status_of (outcome m) = Some HTTP_500_INTERNAL_SERVER_ERROR /\
  extractor_calls (trace_of m)
  = EvFitzOpen (content file) :: page_events 0 (List.length texts) /\
  prompt_calls (trace_of m) = [] /\
  evaluation_calls (trace_of m) = [].
Proof.
  intros Hs Hl Hk Ho Hb m.
  assert (is_dict v = false /\ truthy v = true /\
          forall f, In f required_fields -> py_contains f v = inr true)
    as [Hd [Ht Hc]].
  { pose proof (Hk $"techStack" (or_introl eq_refl)) as H0.
    destruct v; try (now destruct H0).
    - repeat split.
      + destruct s0; [discriminate H0 | reflexivity].
      + intros f Hf. cbn [py_contains]. now rewrite (Hk f Hf).
    - repeat split.
      + destruct l; [discriminate H0 | reflexivity].
      + intros f Hf. cbn [py_contains]. now rewrite (Hk f Hf). }
  assert (parse_json_data env (Some s) = ([], inr v)) as Hp.
  { unfold parse_json_data. rewrite Hs. unfold lift. rewrite Hl.
    rewrite bind_value, Ht. cbn [negb fst snd app].
    rewrite raise_if_false. cbn [fst snd ret app].
    rewrite (check_required_present _ _ Hc). reflexivity. }
  split; trivial.
  rewrite <- blank_whitespace in Hb.
  pose proof (extract_text_ok env _ _ Ho Hb) as He.
  subst m. rewrite (langchain_questions_extracted env _ _ pdf Hp He). cbv zeta.
  assert (forall n k, filter is_extractor_call (page_events n k) = page_events n k) as Fe.
  { intros n k. unfold page_events. apply forallb_filter_id.
    apply forallb_forall. intros x Hx. apply in_map_iff in Hx.
    destruct Hx as [i [<- _]]. reflexivity. }
  assert (forall n k, filter is_prompt_call (page_events n k) = []) as Fp.
  { intros n k. apply filter_empty. intros x Hx. apply in_map_iff in Hx.
    destruct Hx as [i [<- _]]. reflexivity. }
  assert (forall n k, filter is_evaluation_call (page_events n k) = []) as Fv.
  { intros n k. apply filter_empty. intros x Hx. apply in_map_iff in Hx.
    destruct Hx as [i [<- _]]. reflexivity. }
  unfold generate_questions.
  assert (exists c msg, py_getitem v $"techStack" = inl (PyExc c msg) /\
                        is_ValueError (PyExc c msg) = false) as [c [msg [Hg Hnv]]].
  { destruct v; try discriminate Hd; try (now destruct (Hk $"techStack" (or_introl eq_refl)));
      eexists; eexists; split; reflexivity. }
  rewrite Hg, bind_lift_inl. unfold raise. rewrite generation_handler.
  unfold generation_log, generation_error. rewrite Hnv.
  rewrite top_level_http. cbn [fst snd app].
  unfold outcome, trace_of, extractor_calls, prompt_calls, evaluation_calls.
  cbn [fst snd filter is_extractor_call is_prompt_call is_evaluation_call].
  rewrite !filter_app, Fe, Fp, Fv.
  cbn [filter is_extractor_call is_prompt_call is_evaluation_call app].
  rewrite ?app_nil_r. repeat split; reflexivity.
Qed.

End QuestionsStages.

(** ** The order of the calls of a request that goes through *)

Section CallsInOrder.

Variable env : collaborators.
Variable file : UploadFile.
Variable texts : list pystr.
Hypothesis pdf : is_pdf_content_type (content_type file) = true.
Hypothesis opened : fitz_open env (content file) = inr (map inr texts).
Hypothesis readable : forallb PyStr.isspace (concat texts) = false.

(** X14: A request to POST /questions that goes through reads the file, opens
    it, reads the pages in order, builds the prompt from the concatenated text
    and the three values of the payload as they are (whatever their type or
    range), logs the length of the prompt, calls the evaluation client once,
    and logs a warning when no question comes back. *)
Theorem questions_calls_in_order (s : pystr) (kvs : list (pystr * pyval))
  (tech_stack difficulty question_count : pyval) (prompt : pystr)
  (questions : list pystr) :
  PyStr.truthy s = true ->
  json_loads env s = inr (VDict kvs) ->
  dict_get $"techStack" kvs = Some tech_stack ->
  dict_get $"difficultyLevel" kvs = Some difficulty ->
  dict_get $"questionCount" kvs = Some question_count ->
  prepare_prompt env (concat texts) tech_stack difficulty question_count
  = inr prompt ->
  get_questions env prompt = inr questions ->
  trace_of (langchain_questions env file (Some s))
  = EvFileRead :: EvFitzOpen (content file) :: page_events 0 (List.length texts)
    ++ [EvPreparePrompt (concat texts) tech_stack difficulty question_count;
        EvLog INFO ($"Generated prompt for questions, length: "
                    ++ PyStr.of_nat (List.length prompt));
        EvGetQuestions prompt]
    ++ match questions with
       | [] => [EvLog WARNING $"No questions were generated"]
       | _ :: _ => []
       end.
Proof.
  intros Hs Hl Ht Hd Hq Hp Hg.
  assert (accepted_payload env (Some s) kvs) as Ha.
  { exists s. repeat split; trivial.
    intros f [<- | [<- | [<- | []]]]; eapply dict_get_has; eassumption. }
  apply accepted_payload_parsed in Ha.
  pose proof readable as Hb. rewrite <- blank_whitespace in Hb.
  pose proof (extract_text_ok env _ _ opened Hb) as He.
  rewrite (langchain_questions_extracted env _ _ pdf Ha He). cbv zeta.
  unfold trace_of. cbn [fst app]. do 2 f_equal. f_equal.
  unfold generate_questions, py_getitem.
  rewrite Ht, Hd, Hq, !bind_lift_inr, Hp, bind_call_inr, bind_log.
  cbn [fst snd]. rewrite Hg, bind_call_inr.
  destruct questions as [|q r].
  - rewrite bind_log. reflexivity.
  - reflexivity.
Qed.

(** X2: A request to POST /complete-evaluation whose inputs are valid reads the
    file, opens it, reads the pages in order and calls [evaluate_candidate]
    once, with the concatenated text and the inputs as they were given; what
    follows is at most a log entry. *)
Theorem valid_request_reaches_evaluate_candidate (tech_stack : pystr)
  (difficulty question_count : Z) (answers : list (pystr * pystr)) :
  forallb PyStr.isspace tech_stack = false ->
  1 <= difficulty <= 5 ->
  1 <= question_count <= 20 ->
  answers <> [] ->
  exists logs,
    forallb is_log logs = true /\
    trace_of (complete_evaluation env file tech_stack difficulty question_count
                answers)
    = EvFileRead :: EvFitzOpen (content file) :: page_events 0 (List.length texts)
      ++ EvEvaluateCandidate (concat texts) tech_stack difficulty question_count
           answers
      :: logs.
Proof.
  intros Ht Hd Hq Ha.
  rewrite (@complete_evaluation_performed env file texts pdf opened readable
             tech_stack difficulty question_count answers Ht Hd Hq Ha).
  cbv zeta. unfold trace_of at 1. cbn [fst].
  fold (trace_of (top_level env $"complete_evaluation"
                    (perform_evaluation env (concat texts) tech_stack difficulty
                       question_count answers))).
  rewrite top_level_trace, perform_evaluation_trace.
  eexists. split; [| reflexivity].
  apply top_level_log.
Qed.

End CallsInOrder.

(** ** The properties on sample requests *)

Lemma sample_loads_raise_no_http (pages questions : list pystr)
  (score candidate : pyval) :
  loads_raises_no_http (fixed_env pages questions score candidate).
Proof.
  intros s code detail. cbn [json_loads fixed_env]. unfold loads_table.
  destruct (dict_get s sample_documents); discriminate.
Qed.

Lemma scoring_failure_is_translated_witness :
  check_answers (backend_env rate_limited) (VDict closure_answer)
  = ([EvPreparePromptForAnswercheck closure_answer;
      EvGetEvaluation $"Score these answers";
      EvLog ERROR $"Evaluation error: rate limit exceeded"],
     inl (HTTPException HTTP_500_INTERNAL_SERVER_ERROR
            (VStr $"Evaluation failed: rate limit exceeded"))).
Proof.
  apply (@scoring_failure_is_translated (backend_env rate_limited) closure_answer
           [EvPreparePromptForAnswercheck closure_answer;
            EvGetEvaluation $"Score these answers"] rate_limited).
  - split; [discriminate |].
    intros q a [H | []]. injection H as _ <-.
    exists (PyStr.lit "A function with its environment"). split; reflexivity.
  - apply evaluation_fails; reflexivity.
Defined.

Lemma collaborators_need_valid_answers_witness :
  exists items, VDict closure_answer = VDict items /\ answered_items items.
Proof.
  apply (@collaborators_need_valid_answers sample_env (VDict closure_answer)
           (EvGetEvaluation $"Score these answers")).
  - right. left. reflexivity.
  - reflexivity.
Defined.

Lemma check_answers_status_codes_witness :
  exists code,
    answers_with code check_answers_codes
      (outcome (check_answers (backend_env rate_limited) (VDict closure_answer))).
Proof.
  apply check_answers_status_codes.
  repeat split; intros; discriminate.
Defined.

Lemma extraction_failure_is_answered_500_witness :
  let answer :=
    ([EvFileRead; EvFitzOpen [37%N]; EvGetText 0; EvGetText 1; EvGetText 2;
      EvLog ERROR $"Error processing PDF: cannot read page"],
     inl (HTTPException HTTP_500_INTERNAL_SERVER_ERROR
            (VStr $"Failed to process PDF: cannot read page"))) in
  langchain_questions (torn_env torn_page) (pdf_file [37%N]) (Some full_payload)
  = answer /\
  complete_evaluation (torn_env torn_page) (pdf_file [37%N]) [] 9 0 [] = answer.
Proof.
  destruct (@extraction_failure_is_answered_500 (torn_env torn_page)
              (pdf_file [37%N]) (Some full_payload) full_object [] 9 0 []
              [EvFitzOpen [37%N]; EvGetText 0; EvGetText 1; EvGetText 2]
              torn_page) as [Hq Hc].
  - reflexivity.
  - apply (@page_fails (torn_env torn_page) [37%N] resume_pages torn_page
             [inr (PyStr.lit "never read")]).
    reflexivity.
  - split; [| exact Hc].
    apply Hq. exists full_payload. repeat split.
    intros f [<- | [<- | [<- | []]]]; reflexivity.
Defined.

Lemma first_invalid_input_is_reported_witness :
  outcome (complete_evaluation sample_env (pdf_file [37%N]) $"  " 9 0 [])
  = inl (HTTPException HTTP_400_BAD_REQUEST (VStr $"Tech stack cannot be empty")) /\
  outcome (complete_evaluation sample_env (pdf_file [37%N]) $"Python" 9 0 [])
  = inl (HTTPException HTTP_400_BAD_REQUEST
           (VStr $"Difficulty must be an integer between 1 and 5")) /\
  outcome (complete_evaluation sample_env (pdf_file [37%N]) $"Python" 3 0 [])
  = inl (HTTPException HTTP_400_BAD_REQUEST
           (VStr $"Question count must be an integer between 1 and 20")) /\
  outcome (complete_evaluation sample_env (pdf_file [37%N]) $"Python" 3 5 [])
  = inl (HTTPException HTTP_400_BAD_REQUEST
           (VStr $"No answers provided for evaluation")).
Proof.
  assert (is_pdf_content_type (content_type (pdf_file [37%N])) = true) as Hp
    by reflexivity.
  assert (fitz_open sample_env (content (pdf_file [37%N])) = inr (map inr resume_pages))
    as Ho by reflexivity.
  assert (forallb PyStr.isspace (concat resume_pages) = false) as Hr by reflexivity.
  split; [| split; [| split]].
  - apply (@first_invalid_input_is_reported sample_env (pdf_file [37%N])
             resume_pages Hp Ho Hr $"  " 9 0 []).
    reflexivity.
  - apply (@first_invalid_input_is_reported sample_env (pdf_file [37%N])
             resume_pages Hp Ho Hr $"Python" 9 0 []).
    + reflexivity.
    + right. lia.
  - apply (@first_invalid_input_is_reported sample_env (pdf_file [37%N])
             resume_pages Hp Ho Hr $"Python" 3 0 []).
    + reflexivity.
    + lia.
    + left. lia.
  - apply (@first_invalid_input_is_reported sample_env (pdf_file [37%N])
             resume_pages Hp Ho Hr $"Python" 3 5 []).
    + reflexivity.
    + lia.
    + lia.
    + reflexivity.
Defined.

Lemma result_is_returned_unless_error_witness :
  outcome (complete_evaluation sample_env (pdf_file [37%N]) $"Python" 3 5
             sample_answers)
  = inr (Return success_result) /\
  outcome (complete_evaluation (backend_env rate_limited) (pdf_file [37%N])
             $"Python" 3 5 sample_answers)
  = inl (HTTPException HTTP_500_INTERNAL_SERVER_ERROR
           (VStr $"An unexpected error occurred: rate limit exceeded")).
Proof.
  split.
  - destruct (@result_is_returned_unless_error sample_env (pdf_file [37%N])
                resume_pages eq_refl eq_refl eq_refl $"Python" 3 5 sample_answers)
      as [Hok _]; [reflexivity | lia | lia | discriminate |].
    apply (Hok [($"status", VStr $"success"); ($"score", VInt 80)]
               (VStr $"success")); reflexivity.
  - destruct (@result_is_returned_unless_error (backend_env rate_limited)
                (pdf_file [37%N]) resume_pages eq_refl eq_refl eq_refl
                $"Python" 3 5 sample_answers)
      as [_ [_ [_ [_ Hexc]]]]; [reflexivity | lia | lia | discriminate |].
    apply (Hexc EvaluationError). reflexivity.
Defined.

Lemma complete_evaluation_status_codes_witness :
  exists code,
    answers_with code complete_evaluation_codes
      (outcome (complete_evaluation (backend_env rate_limited) (pdf_file [37%N])
                  $"Python" 3 5 sample_answers)).
Proof.
  apply complete_evaluation_status_codes.
  intros resume tech_stack difficulty question_count answers code detail.
  discriminate.
Defined.

Lemma questions_status_codes_witness :
  exists code,
    answers_with code questions_codes
      (outcome (langchain_questions scanned_env (pdf_file [37%N])
                  (Some full_payload))).
Proof.
  apply questions_status_codes.
  apply sample_loads_raise_no_http.
Defined.

Lemma generation_failure_is_translated_witness :
  langchain_questions (backend_env bad_backend_json) (pdf_file [37%N])
    (Some full_payload)
  = ([EvFileRead; EvFitzOpen [37%N]; EvGetText 0; EvGetText 1;
      EvPreparePrompt (concat resume_pages) (VStr $"Python") (VInt 3) (VInt 5);
      EvLog INFO $"Generated prompt for questions, length: 44";
      EvGetQuestions ($"Questions for: " ++ concat resume_pages)],
     inl (HTTPException HTTP_400_BAD_REQUEST
            (VStr $"Expecting value: line 1 column 1 (char 0)"))).
Proof.
  apply (@generation_failure_is_translated (backend_env bad_backend_json)
           (pdf_file [37%N]) eq_refl (Some full_payload) full_object resume_pages
           [EvPreparePrompt (concat resume_pages) (VStr $"Python") (VInt 3) (VInt 5);
            EvLog INFO $"Generated prompt for questions, length: 44";
            EvGetQuestions ($"Questions for: " ++ concat resume_pages)]
           bad_backend_json).
  - exists full_payload. repeat split.
    intros f [<- | [<- | [<- | []]]]; reflexivity.
  - reflexivity.
  - reflexivity.
  - apply (@get_questions_fails (backend_env bad_backend_json)
             (concat resume_pages) full_object (VStr $"Python") (VInt 3) (VInt 5)
             ($"Questions for: " ++ concat resume_pages) bad_backend_json);
      reflexivity.
Defined.

Lemma scalar_payload_is_answered_500_witness :
  exists m,
    langchain_questions (payload_env (VInt 5)) (pdf_file [37%N]) (Some $"5")
    = ([EvFileRead;
        EvLog ERROR ($"Unexpected error in " ++ $"langchain_questions" ++ $": " ++ m)],
       inl (HTTPException HTTP_500_INTERNAL_SERVER_ERROR
              (VStr ($"An unexpected error occurred: " ++ m)))).
Proof.
  apply (@scalar_payload_is_answered_500 (payload_env (VInt 5)) (pdf_file [37%N])
           eq_refl $"5" (VInt 5)); reflexivity.
Defined.

Lemma keyless_payload_passes_the_field_check_witness :
  let m := langchain_questions (payload_env names_array) (pdf_file [37%N])
             (Some $"[...]") in
  parse_json_data (payload_env names_array) (Some $"[...]") = ([], inr names_array) /\
  status_of (outcome m) = Some HTTP_500_INTERNAL_SERVER_ERROR /\
  extractor_calls (trace_of m) = [EvFitzOpen [37%N]; EvGetText 0; EvGetText 1] /\
  prompt_calls (trace_of m) = [] /\
  evaluation_calls (trace_of m) = [].
Proof.
  apply (@keyless_payload_passes_the_field_check (payload_env names_array)
           (pdf_file [37%N]) eq_refl $"[...]" names_array resume_pages).
  - reflexivity.
  - reflexivity.
  - intros f [<- | [<- | [<- | []]]]; reflexivity.
  - reflexivity.
  - reflexivity.
Defined.

Lemma questions_calls_in_order_witness :
  trace_of (langchain_questions sample_env (pdf_file [37%N]) (Some full_payload))
  = [EvFileRead; EvFitzOpen [37%N]; EvGetText 0; EvGetText 1;
     EvPreparePrompt (concat resume_pages) (VStr $"Python") (VInt 3) (VInt 5);
     EvLog INFO $"Generated prompt for questions, length: 44";
     EvGetQuestions ($"Questions for: " ++ concat resume_pages)].
Proof.
  apply (@questions_calls_in_order sample_env (pdf_file [37%N]) resume_pages
           eq_refl eq_refl eq_refl full_payload full_object
           (VStr $"Python") (VInt 3) (VInt 5)
           ($"Questions for: " ++ concat resume_pages)
           [$"What is a closure?"; $"What is a decorator?"]); reflexivity.
Defined.

Lemma valid_request_reaches_evaluate_candidate_witness :
  exists logs,
    forallb is_log logs = true /\
    trace_of (complete_evaluation sample_env (pdf_file [37%N]) $"Python" 3 5
                sample_answers)
    = [EvFileRead; EvFitzOpen [37%N]; EvGetText 0; EvGetText 1]
      ++ EvEvaluateCandidate (concat resume_pages) $"Python" 3 5 sample_answers
      :: logs.
Proof.
  apply (@valid_request_reaches_evaluate_candidate sample_env (pdf_file [37%N])
           resume_pages eq_refl eq_refl eq_refl $"Python" 3 5 sample_answers).
  - reflexivity.
  - lia.
  - lia.
  - discriminate.
Defined.

(** ** The answers of POST /questions to a payload that is refused *)

Section PayloadAnswers.

Variable env : collaborators.
Variable file : UploadFile.
Hypothesis pdf : is_pdf_content_type (content_type file) = true.

Lemma questions_payload_unexpected (data : option pystr) (c : exn_class)
  (m : pystr) :
  parse_json_data env data = ([], inl (PyExc c m)) ->
  langchain_questions env file data
  = ([EvFileRead;
      EvLog ERROR ($"Unexpected error in " ++ $"langchain_questions" ++ $": " ++ m)],
     inl (HTTPException HTTP_500_INTERNAL_SERVER_ERROR
            (VStr ($"An unexpected error occurred: " ++ m)))).
Proof.
  intro Hp. unfold langchain_questions.
  rewrite pdf. cbn [negb]. rewrite raise_if_false, bind_ret.
  unfold file_read. rewrite bind_call_inr, Hp, bind_error. cbn [fst snd].
  unfold top_level. rewrite try_except_error. reflexivity.
Qed.

(** X10: With a PDF content type, only the file is read and: a payload that is
    absent, an empty string, or decodes to a false value (the empty object or
    array, [0], [null], [false]) is answered 400 "Missing required parameters
    in JSON data"; a payload on which [json.loads] raises [JSONDecodeError] is
    answered 400 "Invalid JSON data format"; any other exception of
    [json.loads] that is not an [HTTPException] is logged and answered 500 by
    the outermost handler. *)
Theorem refused_payload_is_explained :
  let refused (detail : pystr) :=
    ([EvFileRead], inl (HTTPException HTTP_400_BAD_REQUEST (VStr detail))) in
  (forall data,
     data = None \/ data = Some [] ->
     langchain_questions env file data
     = refused $"Missing required parameters in JSON data") /\
  (forall s v,
     PyStr.truthy s = true -> json_loads env s = inr v -> truthy v = false ->
     langchain_questions env file (Some s)
     = refused $"Missing required parameters in JSON data") /\
  (forall s m,
     PyStr.truthy s = true -> json_loads env s = inl (PyExc JSONDecodeError m) ->
     langchain_questions env file (Some s)
     = refused $"Invalid JSON data format") /\
  (forall s c m,
     PyStr.truthy s = true -> json_loads env s = inl (PyExc c m) ->
     c <> JSONDecodeError ->
     langchain_questions env file (Some s)
     = ([EvFileRead;
         EvLog ERROR ($"Unexpected error in " ++ $"langchain_questions" ++ $": " ++ m)],
        inl (HTTPException HTTP_500_INTERNAL_SERVER_ERROR
               (VStr ($"An unexpected error occurred: " ++ m))))).
Proof.
  cbv zeta. repeat split.
  - intros data Hd. apply questions_payload_rejected; trivial.
    now apply parse_json_data_absent.
  - intros s v Hs Hl Hv. apply questions_payload_rejected; trivial.
    eapply parse_json_data_falsy; eassumption.
  - intros s m Hs Hl. apply questions_payload_rejected; trivial.
    eapply parse_json_data_undecodable; eassumption.
  - intros s c m Hs Hl Hc. apply questions_payload_unexpected with (c := c).
    unfold parse_json_data. rewrite Hs. unfold lift. rewrite Hl.
    rewrite bind_error, try_except_error.
    destruct c; try congruence; reflexivity.
Qed.

End PayloadAnswers.

Lemma refused_payload_is_explained_witness :
  langchain_questions sample_env (pdf_file [37%N]) None
  = ([EvFileRead],
     inl (HTTPException HTTP_400_BAD_REQUEST
            (VStr $"Missing required parameters in JSON data"))) /\
  langchain_questions sample_env (pdf_file [37%N]) (Some $"{}")
  = ([EvFileRead],
     inl (HTTPException HTTP_400_BAD_REQUEST
            (VStr $"Missing required parameters in JSON data"))) /\
  langchain_questions sample_env (pdf_file [37%N]) (Some $"not json")
  = ([EvFileRead],
     inl (HTTPException HTTP_400_BAD_REQUEST (VStr $"Invalid JSON data format"))).
Proof.
  destruct (@refused_payload_is_explained sample_env (pdf_file [37%N]) eq_refl)
    as [Habsent [Hfalse [Hbad _]]].
  split; [| split].
  - apply Habsent. now left.
  - apply (Hfalse $"{}" (VDict [])); reflexivity.
  - apply (Hbad $"not json" $"Expecting value: line 1 column 1 (char 0)");
      reflexivity.
Defined.
